(** * psycopg JSON adapters (psycopg/types/json.py): a shallow embedding

    The module keeps two process-wide function hooks ([_loads], [_dumps]),
    wraps Python objects in [Json]/[Jsonb] carriers, and provides four dumper
    and four loader classes for the text and binary wire formats.  Module-level
    mutation is modelled with a small state-and-exception monad over the
    module's globals; class inheritance is modelled with explicit method
    resolution along each class's MRO.

    The last part covers the list- and table-level functions of the
    async-to-sync source converter (tools/async_to_sync.py). *)

From stdpp Require Import base gmap strings list.
From Stdlib Require Import ZArith Lia.

(** ** Exceptions and results *)

Inductive exn : Type :=
| DataError (msg : string)            (* psycopg.errors.DataError *)
| UnicodeEncodeError (codepoint : Z)  (* str.encode on a lone surrogate *)
| IndexError                          (* index out of range *)
| AttributeError (name : string)      (* attribute missing on the whole MRO *)
| UserError (tag : string).           (* anything a user-supplied hook raises *)

Inductive result (A : Type) : Type :=
| Ok (a : A)
| Raise (e : exn).

Arguments Ok {A} a.
Arguments Raise {A} e.

(** ** A state-and-exception monad over the module globals

    A Python statement sequence reads and writes the module globals and may
    raise; globals written before the raise stay written. *)

Definition M (S A : Type) : Type := S -> result A * S.

Definition ret {S A} (a : A) : M S A := fun st => (Ok a, st).

Definition raise {S A} (e : exn) : M S A := fun st => (Raise e, st).

Definition bind {S A B} (c : M S A) (k : A -> M S B) : M S B :=
  fun st =>
    match c st with
    | (Ok a, st') => k a st'
    | (Raise e, st') => (Raise e, st')
    end.

Definition lift {S A} (r : result A) : M S A := fun st => (r, st).

Definition get {S} : M S S := fun st => (Ok st, st).

Definition put {S} (st' : S) : M S unit := fun _ => (Ok tt, st').

Definition value_of {S A} (c : M S A) (st : S) : result A := fst (c st).

Definition state_after {S A} (c : M S A) (st : S) : S := snd (c st).

Declare Scope py_scope.
Delimit Scope py_scope with py.

Notation "x <- c ;; k" := (bind c (fun x => k))
  (at level 100, c at next level, right associativity) : py_scope.
Notation "c ;;; k" := (bind c (fun _ => k))
  (at level 100, right associativity) : py_scope.

(** ** Python [str] and [bytes]

    A [str] is a sequence of Unicode code points; [bytes] is a sequence of
    octets.  Both are carried as integers, with the range written out. *)

Definition str : Type := list Z.
Definition bytes : Type := list Z.

Definition is_surrogate (cp : Z) : bool :=
  ((0xD800 <=? cp) && (cp <=? 0xDFFF))%Z.

(** The octets of one code point under [str.encode("utf-8")]. *)
Definition utf8_encode_char (cp : Z) : result bytes :=
  if (cp <? 0)%Z then Raise (UnicodeEncodeError cp)
  else if (cp <? 0x80)%Z then Ok [cp]
  else if (cp <? 0x800)%Z then
    Ok [Z.lor 0xC0 (Z.shiftr cp 6);
        Z.lor 0x80 (Z.land cp 0x3F)]
  else if (cp <? 0x10000)%Z then
    if is_surrogate cp then Raise (UnicodeEncodeError cp)
    else
      Ok [Z.lor 0xE0 (Z.shiftr cp 12);
          Z.lor 0x80 (Z.land (Z.shiftr cp 6) 0x3F);
          Z.lor 0x80 (Z.land cp 0x3F)]
  else if (cp <? 0x110000)%Z then
    Ok [Z.lor 0xF0 (Z.shiftr cp 18);
        Z.lor 0x80 (Z.land (Z.shiftr cp 12) 0x3F);
        Z.lor 0x80 (Z.land (Z.shiftr cp 6) 0x3F);
        Z.lor 0x80 (Z.land cp 0x3F)]
  else Raise (UnicodeEncodeError cp).

(** [s.encode("utf-8")]: the first offending code point raises. *)
Fixpoint utf8_encode (s : str) : result bytes :=
  match s with
  | [] => Ok []
  | cp :: s' =>
      match utf8_encode_char cp with
      | Raise e => Raise e
      | Ok b =>
          match utf8_encode s' with
          | Raise e => Raise e
          | Ok bs => Ok (b ++ bs)
          end
      end
  end.

(** ** The [Buffer] union: [bytes], [bytearray] or [memoryview] *)

(** What indexing a buffer gives: an int for [bytes], for [bytearray] and
    for views of integer items; a [bytes] object of length one for a view of
    format ['c']; for the other formats a value of another type (float,
    bool), kept here with the answer to whether it equals the int 1. *)
Inductive pyitem : Type :=
| ItemInt (n : Z)
| ItemBytes (b : bytes)
| ItemOther (equals_one : bool).

(** [x != 1] *)
Definition item_ne_1 (x : pyitem) : bool :=
  match x with
  | ItemInt n => negb (n =? 1)%Z
  | ItemBytes _ => true
  | ItemOther equals_one => negb equals_one
  end.

(** The item format of a view: how many octets make an item (at least one)
    and what they unpack to. *)
Record view_format : Type := {
  itemsize : positive;
  unpack : bytes -> pyitem
}.

(** ['B']: unsigned octets, the format of a view on [bytes] or a
    [bytearray]. *)
Definition format_B : view_format :=
  {| itemsize := 1; unpack := fun b => ItemInt (hd 0%Z b) |}.

(** ['b']: signed octets. *)
Definition format_b : view_format :=
  {| itemsize := 1;
     unpack := fun b =>
       let x := hd 0%Z b in ItemInt (if (x <? 128)%Z then x else x - 256)%Z |}.

(** ['c']: each item is a [bytes] object of length one. *)
Definition format_c : view_format :=
  {| itemsize := 1; unpack := fun b => ItemBytes b |}.

(** ['H'] on a little-endian machine: unsigned 16-bit items. *)
Definition format_H : view_format :=
  {| itemsize := 2;
     unpack := fun b => ItemInt (nth 0 b 0 + 256 * nth 1 b 0)%Z |}.

(** A one-dimensional memoryview: a window on an exporter's octets.  Item
    [i] is the [itemsize] octets from offset [mv_start + i * mv_stride] on;
    a stride other than the item size gives a non-contiguous view, as an
    extended slice produces. *)
Record memoryview : Type := {
  mv_obj : bytes;
  mv_format : view_format;
  mv_start : Z;
  mv_stride : Z;
  mv_len : nat
}.

Inductive Buffer : Type :=
| PyBytes (b : bytes)
| PyByteArray (b : bytes)
| PyMemoryView (v : memoryview).

(** The octets of item [i]. *)
Definition mv_item (v : memoryview) (i : nat) : bytes :=
  map (fun k =>
         nth (Z.to_nat (mv_start v + Z.of_nat i * mv_stride v) + k)
           (mv_obj v) 0%Z)
    (seq 0 (Pos.to_nat (itemsize (mv_format v)))).

(** [v[i]] *)
Definition mv_getitem (v : memoryview) (i : nat) : pyitem :=
  unpack (mv_format v) (mv_item v i).

(** [bytes(v)]: the octets of the items, copied out in order. *)
Definition mv_tobytes (v : memoryview) : bytes :=
  flat_map (mv_item v) (seq 0 (mv_len v)).

(** [v[1:]]: a view on the same exporter, one item further on. *)
Definition mv_slice_from1 (v : memoryview) : memoryview :=
  match mv_len v with
  | O => v
  | S n =>
      {| mv_obj := mv_obj v;
         mv_format := mv_format v;
         mv_start := (mv_start v + mv_stride v)%Z;
         mv_stride := mv_stride v;
         mv_len := n |}
  end.

Definition mv_contiguous (v : memoryview) : bool :=
  (mv_stride v =? Z.pos (itemsize (mv_format v)))%Z || Nat.leb (mv_len v) 1.

(** The octets a buffer denotes. *)
Definition buffer_content (data : Buffer) : bytes :=
  match data with
  | PyBytes b => b
  | PyByteArray b => b
  | PyMemoryView v => mv_tobytes v
  end.

(** [bool(data)]: a buffer is truthy when its length is not zero. *)
Definition buffer_truth (data : Buffer) : bool :=
  match data with
  | PyBytes b | PyByteArray b => negb (Nat.eqb (length b) 0)
  | PyMemoryView v => negb (Nat.eqb (mv_len v) 0)
  end.

(** [data[0]]: an int for [bytes] and [bytearray], what the format unpacks
    for a view; [IndexError] when empty. *)
Definition buffer_getitem0 (data : Buffer) : result pyitem :=
  match data with
  | PyBytes b | PyByteArray b =>
      match b with
      | [] => Raise IndexError
      | x :: _ => Ok (ItemInt x)
      end
  | PyMemoryView v =>
      match mv_len v with
      | O => Raise IndexError
      | S _ => Ok (mv_getitem v 0)
      end
  end.

(** The buffers whose items are unsigned octets: [bytes], [bytearray] and
    the views of format ['B']. *)
Definition unsigned_bytes (data : Buffer) : Prop :=
  match data with
  | PyMemoryView v => mv_format v = format_B
  | _ => True
  end.

(** [data[1:]]: a slice keeps the kind of its operand. *)
Definition buffer_slice_from1 (data : Buffer) : Buffer :=
  match data with
  | PyBytes b => PyBytes (tl b)
  | PyByteArray b => PyByteArray (tl b)
  | PyMemoryView v => PyMemoryView (mv_slice_from1 v)
  end.

(** [isinstance(data, memoryview)] *)
Definition is_memoryview (data : Buffer) : bool :=
  match data with
  | PyMemoryView _ => true
  | _ => false
  end.

(** [bytes(data)] *)
Definition to_bytes (data : Buffer) : Buffer := PyBytes (buffer_content data).

(** [if isinstance(data, memoryview): data = bytes(data)]: a memoryview is
    copied out to [bytes]; [bytes] and [bytearray] stay as they are. *)
Definition normalized (data : Buffer) : Buffer :=
  if is_memoryview data then to_bytes data else data.

(** ** Wire formats and the classes of the module *)

(** [pq.Format] *)
Inductive Format : Type := TEXT | BINARY.

(** The two wrapper classes; both derive from [_JsonWrapper] and add nothing. *)
Inductive wrapper_class : Type := Json | Jsonb.

Inductive dumper_class : Type :=
| _JsonDumper
| JsonDumper
| JsonBinaryDumper
| JsonbDumper
| JsonbBinaryDumper.

Inductive loader_class : Type :=
| _JsonLoader
| JsonLoader
| JsonbLoader
| JsonBinaryLoader
| JsonbBinaryLoader.

#[global] Instance Format_eq_dec : EqDecision Format.
Proof. solve_decision. Defined.

#[global] Instance wrapper_class_eq_dec : EqDecision wrapper_class.
Proof. solve_decision. Defined.

#[global] Instance dumper_class_eq_dec : EqDecision dumper_class.
Proof. solve_decision. Defined.

#[global] Instance loader_class_eq_dec : EqDecision loader_class.
Proof. solve_decision. Defined.

#[global] Instance Format_countable : Countable Format.
Proof.
  refine (inj_countable'
            (fun f => match f with TEXT => false | BINARY => true end)
            (fun b => if b then BINARY else TEXT) _).
  intros []; reflexivity.
Defined.

#[global] Instance wrapper_class_countable : Countable wrapper_class.
Proof.
  refine (inj_countable'
            (fun c => match c with Json => false | Jsonb => true end)
            (fun b => if b then Jsonb else Json) _).
  intros []; reflexivity.
Defined.

(** Method resolution order of each class, most derived first, up to (and
    excluding) the abstract [Dumper]/[Loader] bases of the adapt module. *)
Definition dumper_mro (c : dumper_class) : list dumper_class :=
  match c with
  | _JsonDumper => [_JsonDumper]
  | JsonDumper => [JsonDumper; _JsonDumper]
  | JsonBinaryDumper => [JsonBinaryDumper; JsonDumper; _JsonDumper]
  | JsonbDumper => [JsonbDumper; _JsonDumper]
  | JsonbBinaryDumper => [JsonbBinaryDumper; JsonbDumper; _JsonDumper]
  end.

Definition loader_mro (c : loader_class) : list loader_class :=
  match c with
  | _JsonLoader => [_JsonLoader]
  | JsonLoader => [JsonLoader; _JsonLoader]
  | JsonbLoader => [JsonbLoader; _JsonLoader]
  | JsonBinaryLoader => [JsonBinaryLoader; _JsonLoader]
  | JsonbBinaryLoader => [JsonbBinaryLoader; _JsonLoader]
  end.

(** Attribute lookup: the first class on the MRO whose body defines it. *)
Fixpoint resolve {C T : Type} (own : C -> option T) (mro : list C) : option T :=
  match mro with
  | [] => None
  | c :: rest =>
      match own c with
      | Some a => Some a
      | None => resolve own rest
      end
  end.

(** The [format] attribute as each class body sets it. *)
Definition dumper_own_format (c : dumper_class) : option Format :=
  match c with
  | _JsonDumper => Some TEXT
  | JsonDumper => Some TEXT
  | JsonBinaryDumper => Some BINARY
  | JsonbDumper => Some TEXT
  | JsonbBinaryDumper => Some BINARY
  end.

Definition loader_own_format (c : loader_class) : option Format :=
  match c with
  | _JsonLoader => None
  | JsonLoader => Some TEXT
  | JsonbLoader => Some TEXT
  | JsonBinaryLoader => Some BINARY
  | JsonbBinaryLoader => Some BINARY
  end.

(** The type name whose OID a dumper class carries in [_oid]. *)
Definition dumper_own_oid_name (c : dumper_class) : option string :=
  match c with
  | JsonDumper => Some "json"%string
  | JsonbDumper => Some "jsonb"%string
  | _ => None
  end.

(** ** The adaptation registry *)

(** Modelled from the spec: the registry of an adaptation context and the
    [register] class methods of [Dumper] and [Loader], which live in the adapt
    module.  A dumper class is filed under (wrapper type, wire format) and a
    loader class under (type OID, wire format); registering under a key that
    is already taken overwrites the entry (last registration wins). *)
Record AdaptContext : Type := {
  ctx_dumpers : gmap (wrapper_class * Format) dumper_class;
  ctx_loaders : gmap (Z * Format) loader_class
}.

Definition empty_context : AdaptContext :=
  {| ctx_dumpers := ∅; ctx_loaders := ∅ |}.

(** Modelled from the spec: [cls.register(src, ctx)] for a dumper class. *)
Definition Dumper_register (cls : dumper_class) (src : wrapper_class)
  : M AdaptContext unit :=
  fun ctx =>
    match resolve dumper_own_format (dumper_mro cls) with
    | None => (Raise (AttributeError "format"), ctx)
    | Some fmt =>
        (Ok tt,
         {| ctx_dumpers := <[(src, fmt) := cls]> (ctx_dumpers ctx);
            ctx_loaders := ctx_loaders ctx |})
    end.

(** Modelled from the spec: [cls.register(name, ctx)] for a loader class; the
    type name is turned into its OID by the catalogue [builtins]. *)
Definition Loader_register (builtins : string -> Z) (cls : loader_class)
  (name : string) : M AdaptContext unit :=
  fun ctx =>
    match resolve loader_own_format (loader_mro cls) with
    | None => (Raise (AttributeError "format"), ctx)
    | Some fmt =>
        (Ok tt,
         {| ctx_dumpers := ctx_dumpers ctx;
            ctx_loaders := <[(builtins name, fmt) := cls]> (ctx_loaders ctx) |})
    end.

Definition lookup_dumper (ctx : AdaptContext) (src : wrapper_class)
  (fmt : Format) : option dumper_class :=
  ctx_dumpers ctx !! (src, fmt).

Definition lookup_loader (ctx : AdaptContext) (oid : Z) (fmt : Format)
  : option loader_class :=
  ctx_loaders ctx !! (oid, fmt).

(** [register_default_globals(ctx)], statement by statement. *)
Definition register_default_globals (builtins : string -> Z)
  : M AdaptContext unit :=
  (Dumper_register JsonBinaryDumper Json ;;;
   Dumper_register JsonDumper Json ;;;
   Dumper_register JsonbBinaryDumper Jsonb ;;;
   Dumper_register JsonbDumper Jsonb ;;;
   Loader_register builtins JsonLoader "json" ;;;
   Loader_register builtins JsonbLoader "jsonb" ;;;
   Loader_register builtins JsonBinaryLoader "json" ;;;
   Loader_register builtins JsonbBinaryLoader "jsonb")%py.

(** ** The module proper *)

Section JsonModule.

(** The type of the Python objects being adapted ([typing.Any]). *)
Context {Any : Type}.

(** [JsonDumpsFunction = Callable[[Any], str]] and
    [JsonLoadsFunction = Callable[[Union[str, bytes, bytearray]], Any]];
    either may raise.  A loads function sees which kind of buffer it was
    handed, so it may reject a memoryview. *)
Definition JsonDumpsFunction : Type := Any -> result str.
Definition JsonLoadsFunction : Type := Buffer -> result Any.

(** The module globals [_loads] and [_dumps]. *)
Record globals : Type := {
  _loads : JsonLoadsFunction;
  _dumps : JsonDumpsFunction
}.

(** [set_json_dumps(dumps)] *)
Definition set_json_dumps (dumps : JsonDumpsFunction) : M globals unit :=
  fun st => (Ok tt, {| _loads := _loads st; _dumps := dumps |}).

(** [set_json_loads(loads)] *)
Definition set_json_loads (loads : JsonLoadsFunction) : M globals unit :=
  fun st => (Ok tt, {| _loads := loads; _dumps := _dumps st |}).

(** *** Wrappers *)

(** An instance of [Json] or [Jsonb]: the slots [obj] and [_dumps]. *)
Record _JsonWrapper : Type := {
  wrapper_cls : wrapper_class;
  obj : Any;
  self_dumps : JsonDumpsFunction
}.

(** A callable object passed as [dumps]: what calling it does, and its
    truth value.  A function, a lambda or a bound method is always truthy;
    an instance of a class with [__call__] is falsy when its [__bool__] or
    [__len__] says so. *)
Record DumpsCallable : Type := {
  py_call : JsonDumpsFunction;
  py_truth : bool
}.

(** A plain function as a callable object. *)
Definition function (f : JsonDumpsFunction) : DumpsCallable :=
  {| py_call := f; py_truth := true |}.

(** [_JsonWrapper.__init__(self, obj, dumps=None)]:
    [self._dumps = dumps or _dumps].  The [or] keeps [dumps] when it is
    truthy and takes the global otherwise: for [None], and for a callable
    object that is falsy. *)
Definition JsonWrapper_init (cls : wrapper_class) (o : Any)
  (dumps : option DumpsCallable) : M globals _JsonWrapper :=
  fun st =>
    (Ok {| wrapper_cls := cls;
           obj := o;
           self_dumps := match dumps with
                         | Some c => if py_truth c then py_call c else _dumps st
                         | None => _dumps st
                         end |},
     st).

(** [_JsonWrapper.dumps(self)] *)
Definition JsonWrapper_dumps (w : _JsonWrapper) : M globals str :=
  lift (self_dumps w (obj w)).

(** *** Dumpers *)

(** [_JsonDumper.dump]: [obj.dumps().encode("utf-8")] *)
Definition _JsonDumper_dump (w : _JsonWrapper) : M globals bytes :=
  (s <- JsonWrapper_dumps w ;;
   lift (utf8_encode s))%py.

(** [JsonbBinaryDumper.dump]: [b"\x01" + obj.dumps().encode("utf-8")] *)
Definition JsonbBinaryDumper_dump (w : _JsonWrapper) : M globals bytes :=
  (s <- JsonWrapper_dumps w ;;
   b <- lift (utf8_encode s) ;;
   ret ([1%Z] ++ b))%py.

(** The [dump] method as each class body defines it. *)
Definition dumper_own_dump (c : dumper_class)
  : option (_JsonWrapper -> M globals bytes) :=
  match c with
  | _JsonDumper => Some _JsonDumper_dump
  | JsonbBinaryDumper => Some JsonbBinaryDumper_dump
  | _ => None
  end.

(** [cls(...).dump(w)], dispatched along the MRO of [cls]. *)
Definition dump (cls : dumper_class) (w : _JsonWrapper) : M globals bytes :=
  match resolve dumper_own_dump (dumper_mro cls) with
  | Some method => method w
  | None => raise (AttributeError "dump")
  end.

(** *** Loaders *)

(** A loader instance: its class, what the base initialiser was given, and
    the slot [_loads] bound by [_JsonLoader.__init__]. *)
Record JsonLoaderObject : Type := {
  loader_cls : loader_class;
  loader_oid : Z;
  loader_context : option AdaptContext;
  self_loads : JsonLoadsFunction
}.

(** [_JsonLoader.get_loads(self)]: [return _loads] *)
Definition _JsonLoader_get_loads : M globals JsonLoadsFunction :=
  (st <- get ;; ret (_loads st))%py.

Definition loader_own_get_loads (c : loader_class)
  : option (M globals JsonLoadsFunction) :=
  match c with
  | _JsonLoader => Some _JsonLoader_get_loads
  | _ => None
  end.

Definition get_loads (cls : loader_class) : M globals JsonLoadsFunction :=
  match resolve loader_own_get_loads (loader_mro cls) with
  | Some method => method
  | None => raise (AttributeError "get_loads")
  end.

(** [_JsonLoader.__init__(self, oid, context=None)]:
    the base initialiser keeps [oid] and [context], then
    [self._loads = self.get_loads()]. *)
Definition JsonLoader_init (cls : loader_class) (oid : Z)
  (context : option AdaptContext) : M globals JsonLoaderObject :=
  (f <- get_loads cls ;;
   ret {| loader_cls := cls;
          loader_oid := oid;
          loader_context := context;
          self_loads := f |})%py.

(** [_JsonLoader.load(self, data)] *)
Definition _JsonLoader_load (self : JsonLoaderObject) (data : Buffer)
  : M globals Any :=
  let data := normalized data in
  lift (self_loads self data).

(** The message of the framing error, as the source spells it: the literal
    is not an f-string, so the braces are part of the text. *)
Definition jsonb_format_message : string :=
  "unknown jsonb binary format: {data[0]}".

(** [JsonbBinaryLoader.load(self, data)] *)
Definition JsonbBinaryLoader_load (self : JsonLoaderObject) (data : Buffer)
  : M globals Any :=
  (bad <- (if buffer_truth data
           then (x <- lift (buffer_getitem0 data) ;;
                 ret (item_ne_1 x))
           else ret false) ;;
   if (bad : bool) then raise (DataError jsonb_format_message)
   else
     let data := buffer_slice_from1 data in
     let data := normalized data in
     lift (self_loads self data))%py.

Definition loader_own_load (c : loader_class)
  : option (JsonLoaderObject -> Buffer -> M globals Any) :=
  match c with
  | _JsonLoader => Some _JsonLoader_load
  | JsonbBinaryLoader => Some JsonbBinaryLoader_load
  | _ => None
  end.

(** [self.load(data)], dispatched along the MRO of the instance's class. *)
Definition load (self : JsonLoaderObject) (data : Buffer) : M globals Any :=
  match resolve loader_own_load (loader_mro (loader_cls self)) with
  | Some method => method self data
  | None => raise (AttributeError "load")
  end.

End JsonModule.

Arguments globals : clear implicits.
Arguments _JsonWrapper : clear implicits.
Arguments JsonLoaderObject : clear implicits.
Arguments JsonDumpsFunction : clear implicits.
Arguments JsonLoadsFunction : clear implicits.
Arguments DumpsCallable : clear implicits.

(** ** Programs over the module: the call sequences the properties speak of *)

Section Scenarios.

Context {Any : Type}.

(** Wrap without an explicit serializer, change the global one, then dump. *)
Definition wrap_set_dumps (cls : wrapper_class) (o : Any)
  (custom_fn : JsonDumpsFunction Any) : M (globals Any) str :=
  (w <- JsonWrapper_init cls o None ;;
   set_json_dumps custom_fn ;;;
   JsonWrapper_dumps w)%py.

(** Change the global serializer first, then wrap without one and dump. *)
Definition set_wrap_dumps (cls : wrapper_class) (o : Any)
  (custom_fn : JsonDumpsFunction Any) : M (globals Any) str :=
  (set_json_dumps custom_fn ;;;
   w <- JsonWrapper_init cls o None ;;
   JsonWrapper_dumps w)%py.

(** A run of [set_json_dumps] calls, in order. *)
Fixpoint set_json_dumps_each (fs : list (JsonDumpsFunction Any))
  : M (globals Any) unit :=
  match fs with
  | [] => ret tt
  | f :: fs' => (set_json_dumps f ;;; set_json_dumps_each fs')%py
  end.

(** Wrap with an explicit serializer, change the global one any number of
    times, then dump. *)
Definition wrap_pinned_dumps (cls : wrapper_class) (o : Any)
  (dumps : DumpsCallable Any) (later : list (JsonDumpsFunction Any))
  : M (globals Any) str :=
  (w <- JsonWrapper_init cls o (Some dumps) ;;
   set_json_dumps_each later ;;;
   JsonWrapper_dumps w)%py.

(** Construct a loader and use it. *)
Definition init_load (cls : loader_class) (oid : Z)
  (context : option AdaptContext) (data : Buffer) : M (globals Any) Any :=
  (l <- JsonLoader_init cls oid context ;;
   load l data)%py.

(** Construct a loader, change the global deserializer, then use the
    loader. *)
Definition init_set_load (cls : loader_class) (oid : Z)
  (context : option AdaptContext) (f : JsonLoadsFunction Any)
  (data : Buffer) : M (globals Any) Any :=
  (l <- JsonLoader_init cls oid context ;;
   set_json_loads f ;;;
   load l data)%py.

(** Change the global deserializer, then construct a loader and use it. *)
Definition set_init_load (cls : loader_class) (oid : Z)
  (context : option AdaptContext) (f : JsonLoadsFunction Any)
  (data : Buffer) : M (globals Any) Any :=
  (set_json_loads f ;;;
   l <- JsonLoader_init cls oid context ;;
   load l data)%py.

(** Wrap a payload, dump it, and load the octets back. *)
Definition roundtrip (wcls : wrapper_class) (dcls : dumper_class)
  (lcls : loader_class) (oid : Z) (payload : Any) : M (globals Any) Any :=
  (w <- JsonWrapper_init wcls payload None ;;
   b <- dump dcls w ;;
   l <- JsonLoader_init lcls oid None ;;
   load l (PyBytes b))%py.

(** Serialize, encode and deserialize with the hooks of [st], no wrapper,
    dumper or loader in between:
    [_loads(_dumps(payload).encode("utf-8"))]. *)
Definition loads_of_dumps (st : globals Any) (payload : Any) : result Any :=
  match _dumps st payload with
  | Raise e => Raise e
  | Ok s =>
      match utf8_encode s with
      | Raise e => Raise e
      | Ok b => _loads st (PyBytes b)
      end
  end.

End Scenarios.

(** The dumper/loader pairs that serve the same type in the same format. *)
Definition matching_pairs : list (wrapper_class * dumper_class * loader_class) :=
  [ (Json, JsonDumper, JsonLoader);
    (Json, JsonBinaryDumper, JsonBinaryLoader);
    (Jsonb, JsonbDumper, JsonbLoader);
    (Jsonb, JsonbBinaryDumper, JsonbBinaryLoader) ].

(** The message the framing error would carry if the literal were formatted:
    the text up to the colon, then the byte in decimal. *)
Definition decimal_digit (d : Z) : string :=
  String (Ascii.ascii_of_nat (48 + Z.to_nat d)) EmptyString.

Fixpoint decimal_of (fuel : nat) (n : Z) : string :=
  match fuel with
  | O => EmptyString
  | S fuel' =>
      if (n <? 10)%Z then decimal_digit n
      else String.append (decimal_of fuel' (n / 10)%Z) (decimal_digit (n mod 10)%Z)
  end.

Definition formatted_message (first : Z) : string :=
  String.append "unknown jsonb binary format: " (decimal_of 3 first).

(** ** A small JSON codec to run the module on

    Literals and arrays only, printed the way [json.dumps] prints them
    (a comma and a space between items) and parsed back from ASCII octets. *)

Module MiniJson.

#[local] Set Warnings "-register-all".

Inductive json : Type :=
| JNull
| JBool (b : bool)
| JArray (items : list json).

Definition lit_null : str := [110; 117; 108; 108]%Z.
Definition lit_true : str := [116; 114; 117; 101]%Z.
Definition lit_false : str := [102; 97; 108; 115; 101]%Z.

Fixpoint dumps_text (j : json) : str :=
  match j with
  | JNull => lit_null
  | JBool true => lit_true
  | JBool false => lit_false
  | JArray items =>
      let fix go (l : list json) : str :=
        match l with
        | [] => []
        | x :: rest =>
            match rest with
            | [] => dumps_text x
            | _ :: _ => dumps_text x ++ [44; 32]%Z ++ go rest
            end
        end in
      [91%Z] ++ go items ++ [93%Z]
  end.

Definition dumps (j : json) : result str := Ok (dumps_text j).

Fixpoint skip_ws (s : str) : str :=
  match s with
  | c :: s' => if (c =? 32)%Z then skip_ws s' else s
  | [] => []
  end.

Fixpoint strip_prefix (p s : str) : option str :=
  match p, s with
  | [], _ => Some s
  | a :: p', b :: s' => if (a =? b)%Z then strip_prefix p' s' else None
  | _ :: _, [] => None
  end.

Fixpoint parse_value (fuel : nat) (s : str) : option (json * str) :=
  match fuel with
  | O => None
  | S fuel' =>
      let s := skip_ws s in
      match strip_prefix lit_null s with
      | Some r => Some (JNull, r)
      | None =>
      match strip_prefix lit_true s with
      | Some r => Some (JBool true, r)
      | None =>
      match strip_prefix lit_false s with
      | Some r => Some (JBool false, r)
      | None =>
      match strip_prefix [91%Z] s with
      | None => None
      | Some r =>
          match strip_prefix [93%Z] (skip_ws r) with
          | Some r' => Some (JArray [], r')
          | None =>
              match parse_items fuel' r with
              | Some (items, r') => Some (JArray items, r')
              | None => None
              end
          end
      end end end end
  end
with parse_items (fuel : nat) (s : str) : option (list json * str) :=
  match fuel with
  | O => None
  | S fuel' =>
      match parse_value fuel' s with
      | None => None
      | Some (v, r) =>
          let r := skip_ws r in
          match strip_prefix [44%Z] r with
          | Some r' =>
              match parse_items fuel' r' with
              | Some (vs, r'') => Some (v :: vs, r'')
              | None => None
              end
          | None =>
              match strip_prefix [93%Z] r with
              | Some r' => Some ([v], r')
              | None => None
              end
          end
      end
  end.

Definition is_ascii (b : bytes) : bool := forallb (fun x => (0 <=? x)%Z && (x <? 128)%Z) b.

(** Like [json.loads], it takes [bytes] or [bytearray] and refuses a
    memoryview. *)
Definition loads (data : Buffer) : result json :=
  match data with
  | PyMemoryView _ => Raise (UserError "TypeError")
  | PyBytes b | PyByteArray b =>
      if is_ascii b then
        match parse_value (2 * S (length b)) b with
        | Some (j, rest) =>
            match skip_ws rest with
            | [] => Ok j
            | _ :: _ => Raise (UserError "JSONDecodeError")
            end
        | None => Raise (UserError "JSONDecodeError")
        end
      else Raise (UserError "JSONDecodeError")
  end.

Definition initial_globals : globals json :=
  {| _loads := loads; _dumps := dumps |}.

(** A serializer that is not the default one. *)
Definition compact_dumps (j : json) : result str :=
  Ok (filter (fun c => negb (c =? 32)%Z) (dumps_text j)).

(** A payload and a loader instance to run the module on. *)
Definition sample : json := JArray [JNull; JBool true; JArray [JBool false]].

Definition sample_loader : JsonLoaderObject json :=
  {| loader_cls := JsonbBinaryLoader;
     loader_oid := 3802;
     loader_context := None;
     self_loads := loads |}.

End MiniJson.

(** ** [_JsonWrapper.__repr__] *)

(** [str(n)] for a non-negative int: its decimal digits, as code points. *)
Fixpoint nat_digits (fuel n : nat) : str :=
  match fuel with
  | O => []
  | S fuel' =>
      if n <? 10 then [Z.of_nat (48 + n)]
      else nat_digits fuel' (n / 10) ++ [Z.of_nat (48 + n mod 10)]
  end.

Definition str_of_nat (n : nat) : str := nat_digits (S n) n.

(** [self.__class__.__name__] *)
Definition class_name (c : wrapper_class) : str :=
  match c with
  | Json => [74; 115; 111; 110]%Z
  | Jsonb => [74; 115; 111; 110; 98]%Z
  end.

(** The text shown for the payload: [sobj] itself up to 40 characters, else
    [f"{sobj[:35]} ... ({len(sobj)} chars)"]. *)
Definition abbreviated (sobj : str) : str :=
  if 40 <? length sobj
  then take 35 sobj ++ [32; 46; 46; 46; 32; 40]%Z
         ++ str_of_nat (length sobj) ++ [32; 99; 104; 97; 114; 115; 41]%Z
  else sobj.

(** [_JsonWrapper.__repr__(self)]; [py_repr] is the builtin [repr], which may
    raise on the wrapped object. *)
Definition JsonWrapper_repr {Any : Type} (py_repr : Any -> result str)
  (w : _JsonWrapper Any) : result str :=
  match py_repr (obj w) with
  | Raise e => Raise e
  | Ok sobj =>
      Ok (class_name (wrapper_cls w) ++ [40%Z] ++ abbreviated sobj ++ [41%Z])
  end.

(** ** Dumping under a given wrapper, and delivery as a view *)

(** Wrap a payload, with or without a serializer of its own, and dump it. *)
Definition wrap_dump {Any : Type} (wcls : wrapper_class) (dcls : dumper_class)
  (o : Any) (dumps : option (DumpsCallable Any)) : M (globals Any) bytes :=
  (w <- JsonWrapper_init wcls o dumps ;;
   dump dcls w)%py.

(** The type name whose OID the dumper registered for a wrapper class
    carries, found along the MRO. *)
Definition dumper_oid_name (cls : dumper_class) : option string :=
  resolve dumper_own_oid_name (dumper_mro cls).

(** * The async-to-sync source converter (tools/async_to_sync.py) *)

Module AsyncToSync.

#[local] Set Warnings "-register-all".

(** *** The fragment of the Python AST the transformers look at *)

(** [ast.Load], [ast.Store], [ast.Del] *)
Inductive expr_context : Type := CtxLoad | CtxStore | CtxDel.

(** Expressions: the three node classes the code tells apart, and one
    constructor for every other expression class.  Only [ast.Name] has an
    [id] field and only [ast.Attribute] has [attr]. *)
Inductive expr : Type :=
| Name (id : string) (ctx : option expr_context)
| Attribute (value : expr) (attr : string) (ctx : option expr_context)
| Call (func : expr) (args : list expr) (keywords : list (option string * expr))
| OtherExpr (cls : string) (fields : list expr).

(** [ast.Assign(targets=..., value=...)] *)
Record Assign : Type := {
  targets : list expr;
  value : expr
}.

(** [ast.alias] and [ast.ImportFrom] *)
Record alias : Type := {
  name : string;
  asname : option string
}.

Record ImportFrom : Type := {
  module : option string;
  names : list alias;
  level : Z
}.

(** *** [RenameAsyncToSync] *)

Definition names_map_items : list (string * string) :=
  [ ("AsyncClientCursor", "ClientCursor");
    ("AsyncConnection", "Connection");
    ("AsyncCopy", "Copy");
    ("AsyncCursor", "Cursor");
    ("AsyncFileWriter", "FileWriter");
    ("AsyncLibpqWriter", "LibpqWriter");
    ("AsyncQueuedLibpqWriter", "QueuedLibpqWriter");
    ("AsyncRawCursor", "RawCursor");
    ("AsyncServerCursor", "ServerCursor");
    ("__aenter__", "__enter__");
    ("__aexit__", "__exit__");
    ("aclose", "close");
    ("aclosing", "closing");
    ("acommands", "commands");
    ("aconn", "conn");
    ("aconn_cls", "conn_cls");
    ("aconn_set", "conn_set");
    ("alist", "list");
    ("anext", "next");
    ("apipeline", "pipeline");
    ("ensure_table_async", "ensure_table");
    ("find_insert_problem_async", "find_insert_problem") ]%string.

(** [RenameAsyncToSync.names_map] *)
Definition names_map : gmap string string := list_to_map names_map_items.

(** [self.names_map.get(k, k)] *)
Definition names_map_get (k : string) : string :=
  default k (names_map !! k).

(** [RenameAsyncToSync.visit_Name]; the transformer hands it [ast.Name]
    nodes only. *)
Definition visit_Name (node : expr) : expr :=
  match node with
  | Name id ctx =>
      match names_map !! id with
      | Some new_id => Name new_id ctx
      | None => node
      end
  | _ => node
  end.

(** [RenameAsyncToSync._skip_imports] *)
Definition _skip_imports : gset string := {[ "alist"; "anext" ]}%string.

(** [RenameAsyncToSync.visit_ImportFrom]; [None] removes the statement. *)
Definition visit_ImportFrom (node : ImportFrom) : option ImportFrom :=
  let is_utils := bool_decide (module node = Some "utils"%string) in
  let kept :=
    if is_utils
    then filter (fun n => name n ∉ _skip_imports) (names node)
    else names node in
  if is_utils && bool_decide (kept = [])
  then None
  else
    Some {| module := module node;
            names := map (fun n => {| name := names_map_get (name n);
                                      asname := asname n |}) kept;
            level := level node |}.

(** *** [AsyncToSync._is_async_call] *)

(** [test.func.id] exists on [ast.Name] only: any other callee raises
    [AttributeError]. *)
Definition _is_async_call (test : expr) : result bool :=
  match test with
  | Call func _ _ =>
      match func with
      | Name id _ =>
          if bool_decide (id <> "is_async"%string) then Ok false else Ok true
      | _ => Raise (AttributeError "id")
      end
  | _ => Ok false
  end.

(** *** [FixAsyncSetters] *)

Definition setters_map_items : list (string * string) :=
  [ ("set_autocommit", "autocommit");
    ("set_read_only", "read_only");
    ("set_isolation_level", "isolation_level");
    ("set_deferrable", "deferrable") ]%string.

(** [FixAsyncSetters.setters_map] *)
Definition setters_map : gmap string string := list_to_map setters_map_items.

(** [FixAsyncSetters._fix_setter(node)] on the call [node], given by its
    fields; the new target attribute is built without a context.  Source
    positions are not part of this model. *)
Definition _fix_setter (func : expr) (args : list expr)
  (keywords : list (option string * expr)) : result (option Assign) :=
  match func with
  | Attribute obj attr _ =>
      match setters_map !! attr with
      | None => Ok None
      | Some target =>
          match args with
          | [] => Raise IndexError
          | arg :: _ =>
              Ok (Some {| targets := [Attribute obj target None];
                          value := arg |})
          end
      end
  | _ => Ok None
  end.

(** *** [BlanksInserter._inject_blanks] *)

Section Blanks.

(** What a statement node holds besides its position. *)
Context {A : Type}.

(** A member of a [body] list: a statement with its first and last line, or
    an [ast_comments.Comment]. *)
Inductive body_node : Type :=
| Stmt (payload : A) (lineno end_lineno : Z)
| Comment (text : string) (inline : bool)
    (lineno end_lineno col_offset end_col_offset : Z).

Definition node_lineno (n : body_node) : Z :=
  match n with
  | Stmt _ l _ => l
  | Comment _ _ l _ _ _ => l
  end.

Definition node_end_lineno (n : body_node) : Z :=
  match n with
  | Stmt _ _ e => e
  | Comment _ _ _ e _ _ => e
  end.

(** The blank the loop makes after [before]. *)
Definition blank_after (before : body_node) : body_node :=
  Comment "" false (node_end_lineno before + 1) (node_end_lineno before + 1) 0 0.

(** The [for] loop of [_inject_blanks], from [before] on. *)
Fixpoint inject_loop (before : body_node) (rest : list body_node)
  : list body_node :=
  match rest with
  | [] => []
  | after :: rest' =>
      let nblanks := (node_lineno after - node_end_lineno before - 1)%Z in
      (if (nblanks >? 0)%Z then [blank_after before] else [])
        ++ after :: inject_loop after rest'
  end.

(** [BlanksInserter._inject_blanks(body)] *)
Definition _inject_blanks (body : list body_node) : list body_node :=
  match body with
  | [] => body
  | before :: rest => before :: inject_loop before rest
  end.

(** An empty comment that is not inline, as the loop makes them. *)
Definition is_blank (n : body_node) : bool :=
  match n with
  | Comment text inline _ _ _ _ => bool_decide (text = ""%string) && negb inline
  | Stmt _ _ _ => false
  end.


End Blanks.

Arguments body_node : clear implicits.

End AsyncToSync.

(** ** The default [json] functions on lists and tuples

    [json.dumps] writes a tuple as it writes a list, as a JSON array, and
    [json.loads] reads every JSON array back as a list.  This is the
    behaviour of the standard library, on the values the small codec
    covers. *)

Module PyJson.

#[local] Set Warnings "-register-all".

Inductive pyobj : Type :=
| PNone
| PBool (b : bool)
| PList (items : list pyobj)
| PTuple (items : list pyobj).

Fixpoint to_json (v : pyobj) : MiniJson.json :=
  match v with
  | PNone => MiniJson.JNull
  | PBool b => MiniJson.JBool b
  | PList items => MiniJson.JArray (map to_json items)
  | PTuple items => MiniJson.JArray (map to_json items)
  end.

Fixpoint of_json (j : MiniJson.json) : pyobj :=
  match j with
  | MiniJson.JNull => PNone
  | MiniJson.JBool b => PBool b
  | MiniJson.JArray items => PList (map of_json items)
  end.

Definition dumps (v : pyobj) : result str := MiniJson.dumps (to_json v).

Definition loads (data : Buffer) : result pyobj :=
  match MiniJson.loads data with
  | Ok j => Ok (of_json j)
  | Raise e => Raise e
  end.

Definition initial_globals : globals pyobj :=
  {| _loads := loads; _dumps := dumps |}.

(** [(True, None)] *)
Definition sample_tuple : pyobj := PTuple [PBool true; PNone].

End PyJson.

(** ** Values to run the definitions on *)

Module Samples.

(** The catalogue entries of the two types, with their PostgreSQL OIDs. *)
Definition builtins (type_name : string) : Z :=
  if String.eqb type_name "json" then 114%Z
  else if String.eqb type_name "jsonb" then 3802%Z
  else 0%Z.

Definition wrapper : _JsonWrapper MiniJson.json :=
  {| wrapper_cls := Jsonb;
     obj := MiniJson.sample;
     self_dumps := MiniJson.dumps |}.

Definition text_loader : JsonLoaderObject MiniJson.json :=
  {| loader_cls := JsonbLoader;
     loader_oid := 3802;
     loader_context := None;
     self_loads := MiniJson.loads |}.

(** A serializer whose text holds a lone surrogate between two quotes. *)
Definition surrogate_dumps (j : MiniJson.json) : result str :=
  Ok [34; 0xD800; 34]%Z.

Definition surrogate_wrapper : _JsonWrapper MiniJson.json :=
  {| wrapper_cls := Json;
     obj := MiniJson.sample;
     self_dumps := surrogate_dumps |}.

(** A view with stride 2 on a buffer holding the octets of [b] at the even
    positions. *)
Definition strided_view (b : bytes) : memoryview :=
  {| mv_obj := flat_map (fun x => [x; 0%Z]) b;
     mv_format := format_B;
     mv_start := 0;
     mv_stride := 2;
     mv_len := length b |}.

(** [memoryview(b"\x01[]").cast("c")]: the octets 1, 91, 93 as items of
    format ['c']. *)
Definition char_view : memoryview :=
  {| mv_obj := [1; 91; 93]%Z;
     mv_format := format_c;
     mv_start := 0;
     mv_stride := 1;
     mv_len := 3 |}.

(** A serializer object that is callable and falsy, such as an instance of
    a class defining [__call__] and a [__len__] that returns 0. *)
Definition falsy_compact_dumps : DumpsCallable MiniJson.json :=
  {| py_call := MiniJson.compact_dumps; py_truth := false |}.

(** [from utils import alist, aclose, list] *)
Definition import_from_utils : AsyncToSync.ImportFrom :=
  {| AsyncToSync.module := Some "utils"%string;
     AsyncToSync.names :=
       [ {| AsyncToSync.name := "alist"; AsyncToSync.asname := None |};
         {| AsyncToSync.name := "aclose"; AsyncToSync.asname := None |};
         {| AsyncToSync.name := "list"; AsyncToSync.asname := None |} ]%string;
     AsyncToSync.level := 1 |}.

(** Three statements: lines 1 to 2, line 5, lines 6 to 7. *)
Definition body : list (AsyncToSync.body_node nat) :=
  [ AsyncToSync.Stmt 1%nat 1%Z 2%Z; AsyncToSync.Stmt 2%nat 5%Z 5%Z;
    AsyncToSync.Stmt 3%nat 6%Z 7%Z ].

End Samples.

(** * Properties *)

(** ** Buffers and views *)

Lemma mv_item_slice_from1 (v : memoryview) (n i : nat) :
  mv_len v = S n ->
  mv_item (mv_slice_from1 v) i = mv_item v (S i).
Proof.
  intros Hlen. unfold mv_slice_from1, mv_item. rewrite Hlen. simpl.
  apply map_ext. intros k. do 2 f_equal. lia.
Qed.

Lemma mv_item_length (v : memoryview) (i : nat) :
  length (mv_item v i) = Pos.to_nat (itemsize (mv_format v)).
Proof. unfold mv_item. rewrite length_map, length_seq. reflexivity. Qed.

Lemma mv_item_nonempty (v : memoryview) (i : nat) : mv_item v i <> [].
Proof.
  intros H. apply (f_equal length) in H. rewrite mv_item_length in H.
  simpl in H. lia.
Qed.

Lemma mv_tobytes_empty (v : memoryview) :
  mv_len v = O -> mv_tobytes v = [].
Proof. intros Hlen. unfold mv_tobytes. rewrite Hlen. reflexivity. Qed.

Lemma mv_tobytes_nonempty (v : memoryview) (n : nat) :
  mv_len v = S n ->
  mv_tobytes v = mv_item v 0 ++ mv_tobytes (mv_slice_from1 v).
Proof.
  intros Hlen. unfold mv_tobytes at 1. rewrite Hlen. simpl. f_equal.
  unfold mv_tobytes.
  assert (Hn : mv_len (mv_slice_from1 v) = n).
  { unfold mv_slice_from1. rewrite Hlen. reflexivity. }
  rewrite Hn, <- seq_shift, flat_map_concat_map, map_map,
    <- flat_map_concat_map.
  apply flat_map_ext. intros i. symmetry.
  eapply mv_item_slice_from1; eassumption.
Qed.

Lemma mv_tobytes_nil_len (v : memoryview) :
  mv_tobytes v = [] -> mv_len v = O.
Proof.
  destruct (mv_len v) as [|n] eqn:Hlen; [reflexivity|]. intros H.
  rewrite (mv_tobytes_nonempty v n Hlen) in H.
  apply app_eq_nil in H as [H _]. destruct (mv_item_nonempty v 0 H).
Qed.

(** Items of format ['B'] are single octets, unpacked as they are. *)
Lemma mv_item_format_B (v : memoryview) (i : nat) :
  mv_format v = format_B ->
  exists x : Z, mv_item v i = [x] /\ mv_getitem v i = ItemInt x.
Proof.
  intros Hf. unfold mv_getitem, mv_item. rewrite Hf. simpl.
  eexists. split; reflexivity.
Qed.

Lemma mv_slice_from1_format (v : memoryview) :
  mv_format (mv_slice_from1 v) = mv_format v.
Proof. unfold mv_slice_from1. destruct (mv_len v); reflexivity. Qed.

Lemma mv_tobytes_slice_from1 (v : memoryview) :
  mv_format v = format_B ->
  mv_tobytes (mv_slice_from1 v) = tl (mv_tobytes v).
Proof.
  intros Hf. destruct (mv_len v) as [|n] eqn:Hlen.
  - unfold mv_slice_from1. rewrite Hlen.
    rewrite (mv_tobytes_empty v Hlen). reflexivity.
  - rewrite (mv_tobytes_nonempty v n Hlen).
    destruct (mv_item_format_B v 0 Hf) as (x & -> & _). reflexivity.
Qed.

Lemma buffer_content_slice_from1 (data : Buffer) :
  unsigned_bytes data ->
  buffer_content (buffer_slice_from1 data) = tl (buffer_content data).
Proof.
  destruct data as [b|b|v]; simpl; intros Hu; try reflexivity.
  apply mv_tobytes_slice_from1. exact Hu.
Qed.

Lemma buffer_truth_empty (data : Buffer) :
  buffer_content data = [] -> buffer_truth data = false.
Proof.
  destruct data as [b|b|v]; simpl; intros H; try (subst b; reflexivity).
  rewrite (mv_tobytes_nil_len v H). reflexivity.
Qed.

Lemma buffer_slice_empty (data : Buffer) :
  buffer_content data = [] -> buffer_content (buffer_slice_from1 data) = [].
Proof.
  destruct data as [b|b|v]; simpl; intros H; try (subst b; reflexivity).
  unfold mv_slice_from1. rewrite (mv_tobytes_nil_len v H). exact H.
Qed.

Lemma buffer_first_byte (data : Buffer) (x : Z) (rest : bytes) :
  unsigned_bytes data ->
  buffer_content data = x :: rest ->
  buffer_truth data = true /\ buffer_getitem0 data = Ok (ItemInt x).
Proof.
  destruct data as [b|b|v]; simpl; intros Hu H;
    try (subst b; split; reflexivity).
  destruct (mv_len v) as [|n] eqn:Hlen.
  - rewrite (mv_tobytes_empty v Hlen) in H. discriminate.
  - rewrite (mv_tobytes_nonempty v n Hlen) in H.
    destruct (mv_item_format_B v 0 Hu) as (y & Hy & Hg).
    rewrite Hy in H. injection H as Hx _. subst y. rewrite Hg.
    split; reflexivity.
Qed.


Lemma normalized_view (v : memoryview) :
  normalized (PyMemoryView v) = PyBytes (mv_tobytes v).
Proof. reflexivity. Qed.

Lemma normalized_not_view (data : Buffer) :
  is_memoryview (normalized data) = false
  /\ buffer_content (normalized data) = buffer_content data.
Proof. destruct data; split; reflexivity. Qed.

(** ** UTF-8 *)

Lemma utf8_encode_ascii (s : str) :
  Forall (fun cp => (0 <= cp < 128)%Z) s -> utf8_encode s = Ok s.
Proof.
  induction 1 as [|cp s Hcp _ IH]; [reflexivity|].
  simpl. rewrite IH. unfold utf8_encode_char.
  destruct (Z.ltb_spec cp 0); [lia|].
  destruct (Z.ltb_spec cp 128); [reflexivity|lia].
Qed.

Lemma utf8_encode_app (s1 s2 : str) (b1 b2 : bytes) :
  utf8_encode s1 = Ok b1 -> utf8_encode s2 = Ok b2 ->
  utf8_encode (s1 ++ s2) = Ok (b1 ++ b2).
Proof.
  revert b1. induction s1 as [|cp s1 IH]; simpl; intros b1 H1 H2.
  - injection H1 as <-. exact H2.
  - destruct (utf8_encode_char cp) as [b|e]; [|discriminate].
    destruct (utf8_encode s1) as [bs|e]; [|discriminate].
    injection H1 as <-. rewrite (IH bs eq_refl H2).
    rewrite <- app_assoc. reflexivity.
Qed.

Example utf8_encode_sample :
  utf8_encode [0xE9; 0x20AC; 0x1F600; 65]%Z
  = Ok [0xC3; 0xA9; 0xE2; 0x82; 0xAC; 0xF0; 0x9F; 0x98; 0x80; 65]%Z.
Proof. reflexivity. Qed.

Example utf8_encode_surrogate :
  utf8_encode [65; 0xD800]%Z = Raise (UnicodeEncodeError 0xD800).
Proof. reflexivity. Qed.

(** ** Method dispatch and construction *)

Section Dispatch.

Context {Any : Type}.

Implicit Types (w : _JsonWrapper Any) (self : JsonLoaderObject Any).
Implicit Types (st : globals Any) (data : Buffer).

Lemma dump_inherited (cls : dumper_class) w :
  cls <> JsonbBinaryDumper -> dump cls w = _JsonDumper_dump w.
Proof. destruct cls; intros H; try reflexivity. contradiction. Qed.

Lemma dump_jsonb_binary w :
  dump JsonbBinaryDumper w = JsonbBinaryDumper_dump w.
Proof. reflexivity. Qed.

Lemma load_inherited self data :
  loader_cls self <> JsonbBinaryLoader ->
  load self data = _JsonLoader_load self data.
Proof.
  unfold load. destruct (loader_cls self); intros H; try reflexivity.
  contradiction.
Qed.

Lemma load_jsonb_binary self data :
  loader_cls self = JsonbBinaryLoader ->
  load self data = JsonbBinaryLoader_load self data.
Proof. unfold load. intros ->. reflexivity. Qed.

(** Construction reads the global deserializer once and leaves the globals
    as they were. *)
Lemma JsonLoader_init_run (cls : loader_class) (oid : Z)
  (context : option AdaptContext) st :
  JsonLoader_init cls oid context st
  = (Ok {| loader_cls := cls; loader_oid := oid;
           loader_context := context; self_loads := _loads st |}, st).
Proof. destruct cls; reflexivity. Qed.

Lemma JsonWrapper_init_run (cls : wrapper_class) (o : Any)
  (dumps : option (DumpsCallable Any)) st :
  JsonWrapper_init cls o dumps st
  = (Ok {| wrapper_cls := cls; obj := o;
           self_dumps := match dumps with
                         | Some c => if py_truth c then py_call c else _dumps st
                         | None => _dumps st
                         end |},
     st).
Proof. reflexivity. Qed.

(** The inherited [load] hands the normalized buffer to the bound function,
    whatever the globals are. *)
Lemma _JsonLoader_load_run self data st :
  _JsonLoader_load self data st = (self_loads self (normalized data), st).
Proof. reflexivity. Qed.

(** The JSONB binary [load], by the outcome of its check. *)
Lemma JsonbBinaryLoader_load_run self data st :
  JsonbBinaryLoader_load self data st
  = if buffer_truth data
    then match buffer_getitem0 data with
         | Ok x =>
             if item_ne_1 x
             then (Raise (DataError jsonb_format_message), st)
             else (self_loads self (normalized (buffer_slice_from1 data)), st)
         | Raise e => (Raise e, st)
         end
    else (self_loads self (normalized (buffer_slice_from1 data)), st).
Proof.
  unfold JsonbBinaryLoader_load, bind, lift, ret, raise.
  destruct (buffer_truth data); [|reflexivity].
  destruct (buffer_getitem0 data) as [x|e]; [|reflexivity].
  destruct (item_ne_1 x); reflexivity.
Qed.

(** The JSONB binary [load] on a buffer of unsigned octets whose first octet
    is the version 1. *)
Lemma JsonbBinaryLoader_load_versioned self data (rest : bytes) st :
  unsigned_bytes data ->
  buffer_content data = 1%Z :: rest ->
  JsonbBinaryLoader_load self data st
  = (self_loads self (normalized (buffer_slice_from1 data)), st).
Proof.
  intros Hu H. destruct (buffer_first_byte data _ _ Hu H) as [Ht Hg].
  rewrite JsonbBinaryLoader_load_run, Ht, Hg. reflexivity.
Qed.

(** The JSONB binary [load] on a buffer of unsigned octets that starts with
    another octet: the framing error, with the bound function left out of
    the result. *)
Lemma JsonbBinaryLoader_load_bad_version self data (x : Z) (rest : bytes) st :
  unsigned_bytes data ->
  buffer_content data = x :: rest -> x <> 1%Z ->
  JsonbBinaryLoader_load self data st
  = (Raise (DataError jsonb_format_message), st).
Proof.
  intros Hu H Hx. destruct (buffer_first_byte data _ _ Hu H) as [Ht Hg].
  rewrite JsonbBinaryLoader_load_run, Ht, Hg. simpl.
  destruct (Z.eqb_spec x 1); [contradiction|reflexivity].
Qed.

Lemma JsonbBinaryLoader_load_empty self data st :
  buffer_content data = [] ->
  JsonbBinaryLoader_load self data st
  = (self_loads self (normalized (buffer_slice_from1 data)), st).
Proof.
  intros H. rewrite JsonbBinaryLoader_load_run.
  rewrite (buffer_truth_empty data H). reflexivity.
Qed.

(** The result of [load] is decided by the loader and the buffer, not by
    the globals at the time of the call, which it leaves as they are. *)
Lemma load_any_globals self data st (st' : globals Any) :
  fst (load self data st) = fst (load self data st')
  /\ snd (load self data st) = st.
Proof.
  destruct (decide (loader_cls self = JsonbBinaryLoader)) as [Hc|Hc].
  - rewrite !(load_jsonb_binary _ _ Hc), !JsonbBinaryLoader_load_run.
    destruct (buffer_truth data); [|split; reflexivity].
    destruct (buffer_getitem0 data) as [x|e]; [|split; reflexivity].
    destruct (item_ne_1 x); split; reflexivity.
  - rewrite !(load_inherited _ _ Hc). split; reflexivity.
Qed.

(** [load] on a [bytes] object, by loader class and first octet. *)
Lemma load_bytes_run self (b : bytes) st :
  load self (PyBytes b) st
  = (if decide (loader_cls self = JsonbBinaryLoader)
     then match b with
          | [] => self_loads self (PyBytes [])
          | x :: rest =>
              if (x =? 1)%Z then self_loads self (PyBytes rest)
              else Raise (DataError jsonb_format_message)
          end
     else self_loads self (PyBytes b),
     st).
Proof.
  destruct (decide (loader_cls self = JsonbBinaryLoader)) as [Hc|Hc].
  - rewrite (load_jsonb_binary _ _ Hc), JsonbBinaryLoader_load_run.
    destruct b as [|x rest]; [reflexivity|]. simpl.
    destruct (x =? 1)%Z; reflexivity.
  - rewrite (load_inherited _ _ Hc). reflexivity.
Qed.

(** [load] on a view: for the JSONB binary loader, when the items are
    unsigned octets. *)
Lemma load_view_run self (v : memoryview) st :
  (loader_cls self = JsonbBinaryLoader -> mv_format v = format_B) ->
  load self (PyMemoryView v) st
  = (if decide (loader_cls self = JsonbBinaryLoader)
     then match mv_tobytes v with
          | [] => self_loads self (PyBytes [])
          | x :: rest =>
              if (x =? 1)%Z then self_loads self (PyBytes rest)
              else Raise (DataError jsonb_format_message)
          end
     else self_loads self (PyBytes (mv_tobytes v)),
     st).
Proof.
  intros Hf.
  destruct (decide (loader_cls self = JsonbBinaryLoader)) as [Hc|Hc].
  - specialize (Hf Hc). rewrite (load_jsonb_binary _ _ Hc).
    destruct (mv_tobytes v) as [|x rest] eqn:Hb.
    + rewrite JsonbBinaryLoader_load_empty by exact Hb.
      assert (Hs : buffer_content (buffer_slice_from1 (PyMemoryView v)) = [])
        by (apply buffer_slice_empty; exact Hb).
      simpl in Hs. unfold normalized, to_bytes. simpl. rewrite Hs. reflexivity.
    + assert (Hs : mv_tobytes (mv_slice_from1 v) = rest)
        by (rewrite (mv_tobytes_slice_from1 v Hf), Hb; reflexivity).
      destruct (Z.eqb_spec x 1) as [->|Hx].
      * rewrite (JsonbBinaryLoader_load_versioned self (PyMemoryView v) rest)
          by assumption.
        unfold normalized, to_bytes. simpl. rewrite Hs. reflexivity.
      * apply (JsonbBinaryLoader_load_bad_version self (PyMemoryView v) x rest);
          assumption.
  - rewrite (load_inherited _ _ Hc). reflexivity.
Qed.

(** [dump] leaves the globals as they are. *)
Lemma dump_keeps_globals (cls : dumper_class) w st :
  snd (dump cls w st) = st.
Proof.
  unfold dump.
  destruct cls; simpl;
    unfold _JsonDumper_dump, JsonbBinaryDumper_dump, JsonWrapper_dumps,
      bind, lift, ret;
    destruct (self_dumps w (obj w)) as [s|e]; simpl; try reflexivity;
    destruct (utf8_encode s); reflexivity.
Qed.

Lemma set_json_dumps_each_loads (fs : list (JsonDumpsFunction Any)) st :
  value_of (set_json_dumps_each fs) st = Ok tt
  /\ _loads (state_after (set_json_dumps_each fs) st) = _loads st.
Proof.
  revert st. induction fs as [|f fs IH]; intros st; [split; reflexivity|].
  unfold value_of, state_after in *. simpl. unfold bind. simpl.
  destruct (IH {| _loads := _loads st; _dumps := f |}) as [Hv Hl].
  split; [exact Hv | exact Hl].
Qed.

End Dispatch.

(** ** The properties of the module *)

Section Claims.

Context {Any : Type}.

Implicit Types (w : _JsonWrapper Any) (self : JsonLoaderObject Any).
Implicit Types (st : globals Any) (data : Buffer).

(** C2, as amended: a wrapper built without an explicit serializer takes the
    global serializer that is current when the wrapper is constructed.  A
    later [set_json_dumps] does not reach it: its [dumps()] still applies the
    function that was global at construction.  A wrapper constructed after
    the call applies the new function. *)
Theorem wrapper_serializer_bound_at_construction
  (cls : wrapper_class) (o : Any) (custom_fn : JsonDumpsFunction Any) st :
  value_of (wrap_set_dumps cls o custom_fn) st = _dumps st o
  /\ value_of (set_wrap_dumps cls o custom_fn) st = custom_fn o.
Proof. split; reflexivity. Qed.

(** C4: [JsonbBinaryDumper.dump] returns the octet 1 followed by the UTF-8
    encoding of the wrapper's serialized text, so what it returns starts with
    1 and is not empty; it returns exactly when the serializer and the
    encoding both succeed, and otherwise raises what they raised.  The
    globals are left alone. *)
Theorem JsonbBinaryDumper_dump_version_prefix w st :
  match value_of (dump JsonbBinaryDumper w) st with
  | Ok out =>
      exists (s : str) (b : bytes),
        self_dumps w (obj w) = Ok s /\ utf8_encode s = Ok b
        /\ out = 1%Z :: b /\ head out = Some 1%Z /\ out <> []
  | Raise e =>
      self_dumps w (obj w) = Raise e
      \/ exists s : str, self_dumps w (obj w) = Ok s /\ utf8_encode s = Raise e
  end
  /\ state_after (dump JsonbBinaryDumper w) st = st.
Proof.
  unfold value_of, state_after. rewrite dump_jsonb_binary.
  unfold JsonbBinaryDumper_dump, JsonWrapper_dumps, bind, lift, ret.
  destruct (self_dumps w (obj w)) as [s|e] eqn:Hs; simpl.
  - destruct (utf8_encode s) as [b|e] eqn:Hb; simpl.
    + split; [|reflexivity]. exists s, b. repeat split; try reflexivity; [exact Hb | discriminate].
    + split; [|reflexivity]. right. exists s. split; [reflexivity|exact Hb].
  - split; [left|]; reflexivity.
Qed.

(** C5: the plain-JSON binary classes behave as the plain-JSON text classes.
    [JsonBinaryDumper.dump] and [JsonDumper.dump] give the same octets, which
    are the UTF-8 encoding of the serialized text with nothing in front; a
    [JsonBinaryLoader] and a [JsonLoader] constructed under the same globals
    give the same result or the same error on every buffer, and hand the
    whole buffer, first octet included, to the deserializer. *)
Theorem json_binary_same_as_text :
  (forall w st, dump JsonBinaryDumper w st = dump JsonDumper w st)
  /\ (forall w st,
        dump JsonBinaryDumper w st
        = (match self_dumps w (obj w) with
           | Ok s => utf8_encode s
           | Raise e => Raise e
           end, st))
  /\ (forall (oid oid' : Z) (context context' : option AdaptContext) data st,
        init_load JsonBinaryLoader oid context data st
        = init_load JsonLoader oid' context' data st)
  /\ (forall (oid : Z) (context : option AdaptContext) data st,
        init_load JsonBinaryLoader oid context data st
        = (_loads st (normalized data), st)).
Proof.
  repeat split.
  intros w st. unfold dump. simpl.
  unfold _JsonDumper_dump, JsonWrapper_dumps, bind, lift.
  destruct (self_dumps w (obj w)); reflexivity.
Qed.

(** C6: a loader binds its deserializer once, at construction, to the global
    one current at that moment.  [set_json_loads f] after construction leaves
    the loader's bound function, and so every result of its [load], as it
    was; a loader constructed after the call is bound to [f]. *)
Theorem loader_binds_loads_at_construction
  (cls : loader_class) (oid : Z) (context : option AdaptContext)
  (f : JsonLoadsFunction Any) data st :
  value_of (l <- JsonLoader_init cls oid context ;;
            set_json_loads f ;;; ret (self_loads l))%py st = Ok (_loads st)
  /\ value_of (init_set_load cls oid context f data) st
     = value_of (init_load cls oid context data) st
  /\ value_of (set_json_loads f ;;;
               l <- JsonLoader_init cls oid context ;;
               ret (self_loads l))%py st = Ok f
  /\ value_of (set_init_load cls oid context f data) st
     = value_of (init_load cls oid context data)
         {| _loads := f; _dumps := _dumps st |}.
Proof.
  repeat split; try (destruct cls; reflexivity).
  unfold init_set_load, init_load, value_of, bind.
  rewrite JsonLoader_init_run. simpl.
  apply load_any_globals.
Qed.

(** C7, as amended: a wrapper built with an explicit serializer whose truth
    value is true, as that of every plain function is, keeps it: after any
    run of [set_json_dumps] calls its [dumps()] is the explicit serializer
    applied to the payload. *)
Theorem explicit_truthy_serializer_pinned
  (cls : wrapper_class) (o : Any) (dumps : DumpsCallable Any)
  (later : list (JsonDumpsFunction Any)) st :
  py_truth dumps = true ->
  value_of (wrap_pinned_dumps cls o dumps later) st = py_call dumps o.
Proof.
  intros Ht. unfold wrap_pinned_dumps, value_of, bind.
  rewrite JsonWrapper_init_run, Ht.
  destruct (set_json_dumps_each_loads later st) as [Hv _].
  unfold value_of in Hv.
  destruct (set_json_dumps_each later st) as [r st'] eqn:Hrun.
  simpl in Hv. subst r. reflexivity.
Qed.

(** C8, as amended: [load] on a memoryview, contiguous or not, gives what
    [load] gives on the [bytes] object holding the view's content, the same
    result or the same error and the same globals afterwards: for every
    loader class but the JSONB binary one whatever the items of the view,
    and for the JSONB binary loader when the items are unsigned octets
    (format ['B']).  In both cases it is the bound deserializer applied to
    the content, less the version octet for the JSONB binary loader. *)
Theorem load_view_same_as_bytes self (v : memoryview) st :
  (loader_cls self = JsonbBinaryLoader -> mv_format v = format_B) ->
  load self (PyMemoryView v) st = load self (PyBytes (mv_tobytes v)) st
  /\ load self (PyMemoryView v) st
     = (if decide (loader_cls self = JsonbBinaryLoader)
        then match mv_tobytes v with
             | [] => self_loads self (PyBytes [])
             | x :: rest =>
                 if (x =? 1)%Z then self_loads self (PyBytes rest)
                 else Raise (DataError jsonb_format_message)
             end
        else self_loads self (PyBytes (mv_tobytes v)),
        st).
Proof.
  intros Hf.
  rewrite (load_view_run self v st Hf), (load_bytes_run self (mv_tobytes v) st).
  split; reflexivity.
Qed.

(** C10: on empty input [JsonbBinaryLoader.load] skips the version check and
    raises no framing error of its own: the empty slice [data[1:]], copied to
    [bytes] if it is a view, goes to the bound deserializer, and the result
    of [load] is whatever the deserializer returns or raises on it. *)
Theorem JsonbBinaryLoader_load_empty_input self data st :
  loader_cls self = JsonbBinaryLoader ->
  buffer_content data = [] ->
  load self data st
  = (self_loads self (normalized (buffer_slice_from1 data)), st)
  /\ buffer_content (normalized (buffer_slice_from1 data)) = []
  /\ is_memoryview (normalized (buffer_slice_from1 data)) = false.
Proof.
  intros Hc He. rewrite (load_jsonb_binary _ _ Hc).
  split; [apply JsonbBinaryLoader_load_empty; exact He|].
  destruct (normalized_not_view (buffer_slice_from1 data)) as [Hv Hn].
  rewrite Hn, (buffer_slice_empty data He). split; [reflexivity|exact Hv].
Qed.

(** C3, as amended: for each matching dumper/loader pair, wrapping a
    payload, dumping the wrapper and loading the octets gives what the bound
    deserializer gives on the UTF-8 octets of the bound serializer's text,
    result or exception: the pair adds nothing and loses nothing, the
    version octet of the JSONB binary dumper being taken off again by its
    loader.  So the payload comes back exactly when the two functions
    themselves give it back. *)
Theorem roundtrip_is_loads_of_dumps (payload : Any) (oid : Z) st :
  Forall
    (fun '(wcls, dcls, lcls) =>
       value_of (roundtrip wcls dcls lcls oid payload) st
       = loads_of_dumps st payload)
    matching_pairs.
Proof.
  unfold matching_pairs.
  repeat (apply Forall_cons; split); try (apply Forall_nil; exact I);
    unfold roundtrip, loads_of_dumps, value_of, bind, JsonWrapper_init,
      dump, load; simpl;
    unfold _JsonDumper_dump, JsonbBinaryDumper_dump, JsonWrapper_dumps,
      _JsonLoader_load, JsonbBinaryLoader_load, bind, lift, ret; simpl;
    (destruct (_dumps st payload) as [s|e]; simpl; [|reflexivity]);
    (destruct (utf8_encode s) as [b|e]; simpl; reflexivity).
Qed.

End Claims.

(** ** The registry *)

Lemma register_default_globals_run (builtins : string -> Z) (ctx : AdaptContext) :
  register_default_globals builtins ctx
  = (Ok tt,
     {| ctx_dumpers :=
          <[(Jsonb, TEXT) := JsonbDumper]>
            (<[(Jsonb, BINARY) := JsonbBinaryDumper]>
               (<[(Json, TEXT) := JsonDumper]>
                  (<[(Json, BINARY) := JsonBinaryDumper]> (ctx_dumpers ctx))));
        ctx_loaders :=
          <[(builtins "jsonb", BINARY) := JsonbBinaryLoader]>
            (<[(builtins "json", BINARY) := JsonBinaryLoader]>
               (<[(builtins "jsonb", TEXT) := JsonbLoader]>
                  (<[(builtins "json", TEXT) := JsonLoader]> (ctx_loaders ctx)))) |}).
Proof. reflexivity. Qed.

(** What a context resolves to once the defaults are in, whatever it held
    before, when the catalogue gives the two types different OIDs. *)
Lemma register_default_globals_lookups
  (builtins : string -> Z) (ctx0 : AdaptContext) :
  builtins "json" <> builtins "jsonb" ->
  let ctx := state_after (register_default_globals builtins) ctx0 in
  lookup_dumper ctx Json TEXT = Some JsonDumper
  /\ lookup_dumper ctx Json BINARY = Some JsonBinaryDumper
  /\ lookup_dumper ctx Jsonb TEXT = Some JsonbDumper
  /\ lookup_dumper ctx Jsonb BINARY = Some JsonbBinaryDumper
  /\ lookup_loader ctx (builtins "json") TEXT = Some JsonLoader
  /\ lookup_loader ctx (builtins "json") BINARY = Some JsonBinaryLoader
  /\ lookup_loader ctx (builtins "jsonb") TEXT = Some JsonbLoader
  /\ lookup_loader ctx (builtins "jsonb") BINARY = Some JsonbBinaryLoader.
Proof.
  intros Hne ctx. subst ctx. unfold state_after.
  rewrite register_default_globals_run. unfold lookup_dumper, lookup_loader.
  simpl. repeat split; rewrite !lookup_insert; repeat case_decide; congruence.
Qed.

(** C9: [register_default_globals] is idempotent.  Run twice on a context
    (the empty one included) it succeeds and leaves the registry as one run
    leaves it: each of the eight registrations files the same class under
    the same key again. *)
Theorem register_default_globals_idempotent
  (builtins : string -> Z) (ctx : AdaptContext) :
  value_of (register_default_globals builtins ;;;
            register_default_globals builtins)%py ctx = Ok tt
  /\ state_after (register_default_globals builtins ;;;
                  register_default_globals builtins)%py ctx
     = state_after (register_default_globals builtins) ctx
  /\ state_after (register_default_globals builtins ;;;
                  register_default_globals builtins)%py empty_context
     = state_after (register_default_globals builtins) empty_context.
Proof.
  assert (Hstate : forall c,
    state_after (register_default_globals builtins ;;;
                 register_default_globals builtins)%py c
    = state_after (register_default_globals builtins) c).
  { intros c. unfold state_after, bind.
    rewrite register_default_globals_run.
    rewrite register_default_globals_run. simpl.
    f_equal; apply map_eq; intros k; rewrite !lookup_insert;
      repeat case_decide; congruence. }
  split; [reflexivity|]. split; apply Hstate.
Qed.

(** ** The module at work on concrete values *)

(** C1: on [b"\x02[]"] and on [b"\x07[]"] the JSONB binary [load] raises
    [DataError], but with the same text both times: the message is the
    unformatted literal, braces and all, and not the text that names the
    offending byte. *)
Theorem JsonbBinaryLoader_error_omits_byte :
  value_of (init_load JsonbBinaryLoader 3802 None (PyBytes [2; 91; 93]%Z))
    MiniJson.initial_globals
  = Raise (DataError "unknown jsonb binary format: {data[0]}")
  /\ value_of (init_load JsonbBinaryLoader 3802 None (PyBytes [7; 91; 93]%Z))
       MiniJson.initial_globals
     = Raise (DataError "unknown jsonb binary format: {data[0]}")
  /\ formatted_message 2 = "unknown jsonb binary format: 2"%string
  /\ jsonb_format_message <> formatted_message 2.
Proof.
  repeat split. intros H. discriminate H.
Qed.

(** A wrapper made under the default serializer still prints with it after
    the global serializer has been replaced: the replacement is not used. *)
Lemma wrap_set_dumps_keeps_old_serializer :
  value_of (wrap_set_dumps Json MiniJson.sample MiniJson.compact_dumps)
    MiniJson.initial_globals
  <> MiniJson.compact_dumps MiniJson.sample.
Proof. intros H. vm_compute in H. discriminate H. Qed.

(** A tuple is serializable, and what comes back through the text pair is
    a list, which is not equal to it. *)
Lemma tuple_roundtrip_gives_list :
  value_of (roundtrip Json JsonDumper JsonLoader 114 PyJson.sample_tuple)
    PyJson.initial_globals
  <> Ok PyJson.sample_tuple.
Proof. intros H. vm_compute in H. discriminate H. Qed.

Example tuple_roundtrip_value :
  Forall
    (fun '(wcls, dcls, lcls) =>
       value_of (roundtrip wcls dcls lcls 114 PyJson.sample_tuple)
         PyJson.initial_globals
       = Ok (PyJson.PList [PyJson.PBool true; PyJson.PNone]))
    matching_pairs.
Proof. repeat constructor. Qed.

(** A serializer object that is falsy is not kept: the wrapper prints with
    the global serializer of the time it was made. *)
Lemma falsy_serializer_not_pinned :
  value_of (wrap_pinned_dumps Json MiniJson.sample
              Samples.falsy_compact_dumps [])
    MiniJson.initial_globals
  <> py_call Samples.falsy_compact_dumps MiniJson.sample.
Proof. intros H. vm_compute in H. discriminate H. Qed.

Lemma explicit_truthy_serializer_pinned_witness :
  value_of (wrap_pinned_dumps Jsonb MiniJson.sample
              (function MiniJson.compact_dumps)
              [MiniJson.dumps; Samples.surrogate_dumps])
    MiniJson.initial_globals
  = MiniJson.compact_dumps MiniJson.sample.
Proof.
  apply (explicit_truthy_serializer_pinned Jsonb MiniJson.sample
           (function MiniJson.compact_dumps)
           [MiniJson.dumps; Samples.surrogate_dumps]
           MiniJson.initial_globals).
  reflexivity.
Defined.

(** On a view of format ['c'] over [b"\x01[]"] the JSONB binary loader
    raises the framing error, and on the same octets as [bytes] it loads. *)
Lemma char_view_load_differs :
  load MiniJson.sample_loader (PyMemoryView Samples.char_view)
    MiniJson.initial_globals
  <> load MiniJson.sample_loader (PyBytes (mv_tobytes Samples.char_view))
       MiniJson.initial_globals.
Proof. intros H. vm_compute in H. discriminate H. Qed.

Example char_view_load_values :
  value_of (load MiniJson.sample_loader (PyMemoryView Samples.char_view))
    MiniJson.initial_globals
  = Raise (DataError jsonb_format_message)
  /\ value_of (load MiniJson.sample_loader
                 (PyBytes (mv_tobytes Samples.char_view)))
       MiniJson.initial_globals
     = Ok (MiniJson.JArray []).
Proof. split; reflexivity. Qed.

Lemma load_view_same_as_bytes_witness :
  load MiniJson.sample_loader
    (PyMemoryView (Samples.strided_view [1; 91; 93]%Z))
    MiniJson.initial_globals
  = load MiniJson.sample_loader
      (PyBytes (mv_tobytes (Samples.strided_view [1; 91; 93]%Z)))
      MiniJson.initial_globals
  /\ load MiniJson.sample_loader
       (PyMemoryView (Samples.strided_view [1; 91; 93]%Z))
       MiniJson.initial_globals
     = (Ok (MiniJson.JArray []), MiniJson.initial_globals).
Proof.
  apply (load_view_same_as_bytes MiniJson.sample_loader
           (Samples.strided_view [1; 91; 93]%Z) MiniJson.initial_globals).
  intros _. reflexivity.
Defined.

Lemma JsonbBinaryLoader_load_empty_input_witness :
  load MiniJson.sample_loader (PyMemoryView
         {| mv_obj := [1; 91; 93]%Z; mv_format := format_B;
            mv_start := 0; mv_stride := 2; mv_len := 0 |})
    MiniJson.initial_globals
  = (MiniJson.loads (PyBytes []), MiniJson.initial_globals).
Proof.
  apply (JsonbBinaryLoader_load_empty_input MiniJson.sample_loader
           (PyMemoryView
              {| mv_obj := [1; 91; 93]%Z; mv_format := format_B;
                 mv_start := 0; mv_stride := 2; mv_len := 0 |})
           MiniJson.initial_globals); reflexivity.
Defined.

(** The example of the specification, on the small codec: the text dumper
    and the JSONB binary dumper on the same payload, and the way back. *)
Example dump_sample_text_and_binary :
  value_of (w <- JsonWrapper_init Json MiniJson.sample None ;;
            dump JsonDumper w)%py MiniJson.initial_globals
  = Ok (MiniJson.dumps_text MiniJson.sample)
  /\ value_of (w <- JsonWrapper_init Jsonb MiniJson.sample None ;;
               dump JsonbBinaryDumper w)%py MiniJson.initial_globals
     = Ok (1%Z :: MiniJson.dumps_text MiniJson.sample)
  /\ value_of (init_load JsonbBinaryLoader 3802 None
                 (PyBytes (1%Z :: MiniJson.dumps_text MiniJson.sample)))
       MiniJson.initial_globals
     = Ok MiniJson.sample.
Proof. repeat split. Qed.

(** A strided view on interleaved octets loads as its content does. *)
Example load_strided_view :
  value_of (init_load JsonbBinaryLoader 3802 None
              (PyMemoryView {| mv_obj := [0; 1; 0; 91; 0; 93]%Z;
                               mv_format := format_B;
                               mv_start := 1; mv_stride := 2; mv_len := 3 |}))
    MiniJson.initial_globals
  = Ok (MiniJson.JArray []).
Proof. reflexivity. Qed.

(** * Further properties of the JSON adapters *)

Lemma utf8_encode_char_first (c : Z) (bs : bytes) :
  utf8_encode_char c = Ok bs -> c <> 1%Z ->
  exists (x : Z) (rest : bytes), bs = x :: rest /\ x <> 1%Z.
Proof.
  assert (Hlor : forall a y, Z.testbit a 7 = true -> Z.lor a y <> 1%Z).
  { intros a y Ha Heq.
    apply (f_equal (fun z => Z.testbit z 7)) in Heq.
    rewrite Z.lor_spec, Ha in Heq. discriminate Heq. }
  unfold utf8_encode_char. intros H Hc.
  repeat match type of H with
         | (if ?b then _ else _) = _ => destruct b
         end;
    try discriminate H; injection H as <-;
    eexists _, _; (split; [reflexivity|]); try exact Hc;
    apply Hlor; reflexivity.
Qed.

Lemma utf8_encode_first (c : Z) (s : str) (b : bytes) :
  utf8_encode (c :: s) = Ok b -> c <> 1%Z ->
  exists (x : Z) (rest : bytes), b = x :: rest /\ x <> 1%Z.
Proof.
  simpl. intros H Hc.
  destruct (utf8_encode_char c) as [bs|e] eqn:Hbs; [|discriminate H].
  destruct (utf8_encode s) as [bs'|e]; [|discriminate H].
  injection H as <-.
  destruct (utf8_encode_char_first c bs Hbs Hc) as (x & rest & -> & Hx).
  exists x, (rest ++ bs'). split; [reflexivity|exact Hx].
Qed.

Lemma utf8_encode_char_surrogate (cp : Z) :
  is_surrogate cp = true -> utf8_encode_char cp = Raise (UnicodeEncodeError cp).
Proof.
  intros Hs. unfold utf8_encode_char. rewrite Hs.
  unfold is_surrogate in Hs. apply andb_prop in Hs as [H1 H2].
  apply Z.leb_le in H1. apply Z.leb_le in H2.
  destruct (Z.ltb_spec cp 0); [lia|].
  destruct (Z.ltb_spec cp 128); [lia|].
  destruct (Z.ltb_spec cp 2048); [lia|].
  destruct (Z.ltb_spec cp 65536); [reflexivity|lia].
Qed.

Lemma utf8_encode_raises_at (pre post : str) (cp : Z) (b : bytes) (e : exn) :
  utf8_encode pre = Ok b -> utf8_encode_char cp = Raise e ->
  utf8_encode (pre ++ cp :: post) = Raise e.
Proof.
  revert b. induction pre as [|c pre IH]; simpl; intros b Hpre Hcp.
  - rewrite Hcp. reflexivity.
  - destruct (utf8_encode_char c) as [bc|e']; [|discriminate Hpre].
    destruct (utf8_encode pre) as [bp|e']; [|discriminate Hpre].
    rewrite (IH bp eq_refl Hcp). reflexivity.
Qed.

Section MoreClaims.

Context {Any : Type}.

Implicit Types (w : _JsonWrapper Any) (self : JsonLoaderObject Any).
Implicit Types (st : globals Any) (data : Buffer).

(** The JSONB binary dump of a wrapper is the JSONB text dump with one octet
    1 in front; where the text dump raises, the binary dump raises the
    same. *)
Theorem jsonb_binary_dump_is_prefixed_text_dump w st :
  value_of (dump JsonbBinaryDumper w) st
  = match value_of (dump JsonbDumper w) st with
    | Ok b => Ok (1%Z :: b)
    | Raise e => Raise e
    end.
Proof.
  unfold value_of, dump. simpl.
  unfold JsonbBinaryDumper_dump, _JsonDumper_dump, JsonWrapper_dumps,
    bind, lift, ret.
  destruct (self_dumps w (obj w)) as [s|e]; simpl; [|reflexivity].
  destruct (utf8_encode s); reflexivity.
Qed.

(** On a buffer of unsigned octets that starts with the version octet, the
    JSONB binary loader gives what a text loader bound to the same function
    gives on the rest of the buffer. *)
Theorem jsonb_binary_load_strips_version self self' data (rest : bytes) st :
  loader_cls self = JsonbBinaryLoader ->
  loader_cls self' <> JsonbBinaryLoader ->
  self_loads self' = self_loads self ->
  unsigned_bytes data ->
  buffer_content data = 1%Z :: rest ->
  load self data st = load self' (buffer_slice_from1 data) st
  /\ buffer_content (buffer_slice_from1 data) = rest.
Proof.
  intros Hc Hc' Hl Hu Hd.
  rewrite (load_jsonb_binary _ _ Hc), (load_inherited _ _ Hc').
  rewrite (JsonbBinaryLoader_load_versioned self data rest st Hu Hd).
  rewrite _JsonLoader_load_run, Hl, (buffer_content_slice_from1 data Hu), Hd.
  split; reflexivity.
Qed.


(** Only the two setters write the module globals: building a wrapper or a
    loader, dumping and loading all leave both hooks as they were, whether
    they return or raise. *)
Theorem codec_calls_leave_globals
  (wcls : wrapper_class) (dcls : dumper_class) (lcls : loader_class)
  (o : Any) (dumps : option (DumpsCallable Any)) (oid : Z)
  (context : option AdaptContext) w self data st :
  state_after (JsonWrapper_init wcls o dumps) st = st
  /\ state_after (JsonWrapper_dumps w) st = st
  /\ state_after (dump dcls w) st = st
  /\ state_after (JsonLoader_init lcls oid context) st = st
  /\ state_after (load self data) st = st
  /\ state_after (roundtrip wcls dcls lcls oid o) st = st.
Proof.
  unfold state_after. repeat split.
  - apply dump_keeps_globals.
  - rewrite JsonLoader_init_run. reflexivity.
  - apply (load_any_globals self data st st).
  - unfold roundtrip, bind. rewrite JsonWrapper_init_run.
    match goal with |- context [dump ?c ?w0 st] =>
      pose proof (dump_keeps_globals c w0 st) as Hd;
      destruct (dump c w0 st) as [[b|e] st1]
    end; simpl in Hd; subst st1; [|reflexivity].
    rewrite JsonLoader_init_run.
    match goal with |- snd (load ?l ?d st) = st =>
      apply (load_any_globals l d st st)
    end.
Qed.

End MoreClaims.

Section Formats.

Context {Any : Type}.

Implicit Types (w : _JsonWrapper Any) (self : JsonLoaderObject Any).
Implicit Types (st : globals Any) (data : Buffer).

(** What any dumper class but the JSONB binary one returns, handed to the
    JSONB binary loader, is refused with the framing error whenever the
    serialized text starts with a character other than U+0001: a text-format
    value is never taken for a binary one. *)
Theorem text_dump_refused_by_binary_loader
  (dcls : dumper_class) w self (c : Z) (s : str) (b : bytes) st :
  dcls <> JsonbBinaryDumper ->
  loader_cls self = JsonbBinaryLoader ->
  self_dumps w (obj w) = Ok (c :: s) ->
  c <> 1%Z ->
  utf8_encode (c :: s) = Ok b ->
  (out <- dump dcls w ;; load self (PyBytes out))%py st
  = (Raise (DataError jsonb_format_message), st).
Proof.
  intros Hd Hc Hs Hne Hb.
  destruct (utf8_encode_first c s b Hb Hne) as (x & rest & -> & Hx).
  unfold bind. rewrite (dump_inherited dcls w Hd).
  unfold _JsonDumper_dump, JsonWrapper_dumps, bind, lift. rewrite Hs, Hb.
  rewrite (load_jsonb_binary _ _ Hc).
  apply (JsonbBinaryLoader_load_bad_version self (PyBytes (x :: rest)) x rest);
    [exact I|reflexivity|exact Hx].
Qed.

(** The other way round goes unnoticed: what the JSONB binary dumper
    returns, handed to a loader of any other class, reaches the deserializer
    whole, version octet included. *)
Theorem binary_dump_reaches_text_deserializer_whole
  w self (s : str) (b : bytes) st :
  loader_cls self <> JsonbBinaryLoader ->
  self_dumps w (obj w) = Ok s ->
  utf8_encode s = Ok b ->
  (out <- dump JsonbBinaryDumper w ;; load self (PyBytes out))%py st
  = (self_loads self (PyBytes (1%Z :: b)), st).
Proof.
  intros Hc Hs Hb. unfold bind. rewrite dump_jsonb_binary.
  unfold JsonbBinaryDumper_dump, JsonWrapper_dumps, bind, lift, ret.
  rewrite Hs, Hb. rewrite (load_inherited _ _ Hc). reflexivity.
Qed.

(** The setters overwrite: of two calls to the same setter the later one
    decides; the two setters act on separate hooks and so commute. *)
Theorem setters_overwrite_and_commute
  (f g : JsonDumpsFunction Any) (h k : JsonLoadsFunction Any) st :
  (set_json_dumps f ;;; set_json_dumps g)%py st = set_json_dumps g st
  /\ (set_json_loads h ;;; set_json_loads k)%py st = set_json_loads k st
  /\ (set_json_dumps f ;;; set_json_loads h)%py st
     = (set_json_loads h ;;; set_json_dumps f)%py st
  /\ _loads (state_after (set_json_dumps f) st) = _loads st
  /\ _dumps (state_after (set_json_loads h) st) = _dumps st.
Proof. repeat split. Qed.

(** Replacing the deserializer changes nothing about wrapping and dumping,
    and replacing the serializer changes nothing about constructing a loader
    and loading. *)
Theorem hooks_are_independent
  (wcls : wrapper_class) (dcls : dumper_class) (lcls : loader_class)
  (o : Any) (dumps : option (DumpsCallable Any))
  (f : JsonDumpsFunction Any) (h : JsonLoadsFunction Any)
  (oid : Z) (context : option AdaptContext) data st :
  value_of (set_json_loads h ;;; wrap_dump wcls dcls o dumps)%py st
  = value_of (wrap_dump wcls dcls o dumps) st
  /\ value_of (set_json_dumps f ;;; init_load lcls oid context data)%py st
     = value_of (init_load lcls oid context data) st.
Proof.
  split.
  - unfold value_of, bind, wrap_dump, bind. simpl.
    destruct dumps as [[c []]|]; simpl;
      destruct dcls; unfold dump; simpl;
      unfold _JsonDumper_dump, JsonbBinaryDumper_dump, JsonWrapper_dumps,
        bind, lift, ret; simpl;
      match goal with
      | |- context [match ?r with Ok _ => _ | Raise _ => _ end] =>
          destruct r as [s|e]; simpl; try reflexivity
      end;
      destruct (utf8_encode s); reflexivity.
  - unfold value_of, init_load, bind. simpl.
    rewrite !JsonLoader_init_run. simpl. apply load_any_globals.
Qed.

End Formats.

Section Encoding.

Context {Any : Type}.

Implicit Types (w : _JsonWrapper Any) (self : JsonLoaderObject Any).
Implicit Types (st : globals Any) (data : Buffer).

(** When the serializer returns ASCII text, as [json.dumps] does by default,
    the octets dumped are the characters of the text one for one, behind the
    version octet for the JSONB binary dumper. *)
Theorem dump_ascii_text_verbatim (dcls : dumper_class) w (s : str) st :
  self_dumps w (obj w) = Ok s ->
  Forall (fun cp => (0 <= cp < 128)%Z) s ->
  value_of (dump dcls w) st
  = Ok (if decide (dcls = JsonbBinaryDumper) then 1%Z :: s else s).
Proof.
  intros Hs Ha. pose proof (utf8_encode_ascii s Ha) as Hb.
  unfold value_of.
  destruct (decide (dcls = JsonbBinaryDumper)) as [->|Hd].
  - rewrite dump_jsonb_binary.
    unfold JsonbBinaryDumper_dump, JsonWrapper_dumps, bind, lift, ret.
    rewrite Hs, Hb. reflexivity.
  - rewrite (dump_inherited dcls w Hd).
    unfold _JsonDumper_dump, JsonWrapper_dumps, bind, lift.
    rewrite Hs, Hb. reflexivity.
Qed.

(** When the serialized text holds a lone surrogate after an encodable
    prefix, every dumper raises [UnicodeEncodeError] for that code point and
    returns no octets. *)
Theorem dump_lone_surrogate_raises
  (dcls : dumper_class) w (pre post : str) (cp : Z) (b : bytes) st :
  self_dumps w (obj w) = Ok (pre ++ cp :: post) ->
  utf8_encode pre = Ok b ->
  is_surrogate cp = true ->
  value_of (dump dcls w) st = Raise (UnicodeEncodeError cp).
Proof.
  intros Hs Hpre Hcp.
  pose proof (utf8_encode_raises_at pre post cp b _ Hpre
                (utf8_encode_char_surrogate cp Hcp)) as He.
  unfold value_of.
  destruct (decide (dcls = JsonbBinaryDumper)) as [->|Hd].
  - rewrite dump_jsonb_binary.
    unfold JsonbBinaryDumper_dump, JsonWrapper_dumps, bind, lift, ret.
    rewrite Hs, He. reflexivity.
  - rewrite (dump_inherited dcls w Hd).
    unfold _JsonDumper_dump, JsonWrapper_dumps, bind, lift.
    rewrite Hs, He. reflexivity.
Qed.

(** Delivery as a memoryview changes nothing: for each matching pair,
    loading a view, contiguous or strided, whose content is what the dumper
    returned gives what the bound deserializer gives on the UTF-8 octets of
    the serialized text, and so the payload whenever the two functions give
    it back; for the JSONB binary pair the view is one of unsigned octets
    (format ['B']). *)
Theorem roundtrip_through_view (payload : Any) (oid : Z) st :
  Forall
    (fun '(wcls, dcls, lcls) =>
       forall (v : memoryview) (wire : bytes),
         value_of (wrap_dump wcls dcls payload None) st = Ok wire ->
         mv_tobytes v = wire ->
         (lcls = JsonbBinaryLoader -> mv_format v = format_B) ->
         value_of (init_load lcls oid None (PyMemoryView v)) st
         = loads_of_dumps st payload)
    matching_pairs.
Proof.
  unfold matching_pairs.
  repeat (apply Forall_cons; split); try (apply Forall_nil; exact I);
    intros v wire Hw Hv Hf;
    unfold value_of, wrap_dump, init_load, loads_of_dumps, bind in *;
    rewrite JsonLoader_init_run; rewrite JsonWrapper_init_run in Hw;
    match goal with
    | |- context [load ?l (PyMemoryView v) ?s0] =>
        rewrite (load_view_run l v s0 Hf), Hv
    end;
    unfold dump in Hw; simpl in *;
    unfold _JsonDumper_dump, JsonbBinaryDumper_dump, JsonWrapper_dumps,
      bind, lift, ret in Hw;
    simpl in Hw;
    (destruct (_dumps st payload) as [s|e]; simpl in Hw; [|discriminate Hw]);
    (destruct (utf8_encode s) as [b|e]; simpl in Hw; [|discriminate Hw]);
    injection Hw as <-; reflexivity.
Qed.

End Encoding.

(** ** [__repr__] *)

Lemma nat_digits_step (fuel n : nat) :
  nat_digits (S fuel) n
  = if n <? 10 then [Z.of_nat (48 + n)]
    else nat_digits fuel (n / 10) ++ [Z.of_nat (48 + n mod 10)].
Proof. reflexivity. Qed.

Lemma str_of_nat_two_digits (n : nat) :
  10 <= n < 100 -> length (str_of_nat n) = 2.
Proof.
  intros [Hlo Hhi]. unfold str_of_nat. rewrite nat_digits_step.
  destruct (Nat.ltb_spec n 10); [lia|].
  destruct n as [|m]; [lia|]. rewrite nat_digits_step.
  assert (Hq : S m / 10 < 10) by (apply Nat.Div0.div_lt_upper_bound; lia).
  destruct (Nat.ltb_spec (S m / 10) 10); [reflexivity|lia].
Qed.

Lemma abbreviated_short (sobj : str) :
  length sobj <= 40 -> abbreviated sobj = sobj.
Proof.
  intros H. unfold abbreviated.
  destruct (Nat.ltb_spec 40 (length sobj)); [lia|reflexivity].
Qed.

Lemma abbreviated_long (sobj : str) :
  40 < length sobj ->
  abbreviated sobj
  = take 35 sobj ++ [32; 46; 46; 46; 32; 40]%Z
      ++ str_of_nat (length sobj) ++ [32; 99; 104; 97; 114; 115; 41]%Z.
Proof.
  intros H. unfold abbreviated.
  destruct (Nat.ltb_spec 40 (length sobj)); [reflexivity|lia].
Qed.

Section Repr.

Context {Any : Type}.

(** The repr of a wrapper is the class name and, in parentheses, the repr
    of the payload, cut down when that is longer than 40 characters.  What is
    shown always opens with the first 35 characters of the payload's repr
    and is at most 48 characters plus the decimal digits of the full length
    long. *)
Theorem repr_shows_bounded_prefix
  (py_repr : Any -> result str) (w : _JsonWrapper Any) (sobj : str) :
  py_repr (obj w) = Ok sobj ->
  exists shown : str,
    JsonWrapper_repr py_repr w
    = Ok (class_name (wrapper_cls w) ++ [40%Z] ++ shown ++ [41%Z])
    /\ take 35 shown = take 35 sobj
    /\ length shown <= 48 + length (str_of_nat (length sobj))
    /\ (length sobj <= 40 -> shown = sobj).
Proof.
  intros Hr. exists (abbreviated sobj). unfold JsonWrapper_repr. rewrite Hr.
  split; [reflexivity|].
  destruct (Nat.le_gt_cases (length sobj) 40) as [Hs|Hl].
  - rewrite (abbreviated_short sobj Hs). repeat split; lia.
  - rewrite (abbreviated_long sobj Hl). split; [|split].
    + rewrite take_app_le by (rewrite length_take; lia).
      rewrite take_take. f_equal; lia.
    + rewrite !length_app, length_take. cbn [length]. lia.
    + lia.
Qed.

(** A payload repr of 41 to 49 characters is shown in 50: in that range the
    abbreviation is longer than what it abbreviates. *)
Theorem repr_abbreviation_can_lengthen (sobj : str) :
  40 < length sobj < 50 ->
  length (abbreviated sobj) = 50 /\ length sobj < length (abbreviated sobj).
Proof.
  intros [Hlo Hhi]. rewrite (abbreviated_long sobj Hlo).
  rewrite !length_app, length_take.
  rewrite (str_of_nat_two_digits (length sobj)) by lia.
  cbn [length]. lia.
Qed.

End Repr.

(** ** The default registry *)

(** After [register_default_globals], whatever the context held before, each
    wrapper type and format resolves to its own dumper class and each of the
    two type OIDs and format to its own loader class. *)
Theorem register_default_globals_overrides
  (builtins : string -> Z) (ctx : AdaptContext) :
  builtins "json" <> builtins "jsonb" ->
  let ctx' := state_after (register_default_globals builtins) ctx in
  lookup_dumper ctx' Json TEXT = Some JsonDumper
  /\ lookup_dumper ctx' Json BINARY = Some JsonBinaryDumper
  /\ lookup_dumper ctx' Jsonb TEXT = Some JsonbDumper
  /\ lookup_dumper ctx' Jsonb BINARY = Some JsonbBinaryDumper
  /\ lookup_loader ctx' (builtins "json") TEXT = Some JsonLoader
  /\ lookup_loader ctx' (builtins "json") BINARY = Some JsonBinaryLoader
  /\ lookup_loader ctx' (builtins "jsonb") TEXT = Some JsonbLoader
  /\ lookup_loader ctx' (builtins "jsonb") BINARY = Some JsonbBinaryLoader.
Proof. exact (register_default_globals_lookups builtins ctx). Qed.

(** The default registry hands out pairs that fit: for each wrapper type and
    format, the dumper registered for them names the type under whose OID,
    in the same format, the registry holds a loader, and the two are one of
    the matching pairs; both carry the format they are filed under. *)
Theorem default_registry_pairs_match
  (builtins : string -> Z) (ctx : AdaptContext)
  (wcls : wrapper_class) (fmt : Format) :
  builtins "json" <> builtins "jsonb" ->
  let ctx' := state_after (register_default_globals builtins) ctx in
  exists (d : dumper_class) (type_name : string) (l : loader_class),
    lookup_dumper ctx' wcls fmt = Some d
    /\ dumper_oid_name d = Some type_name
    /\ lookup_loader ctx' (builtins type_name) fmt = Some l
    /\ (wcls, d, l) ∈ matching_pairs
    /\ resolve dumper_own_format (dumper_mro d) = Some fmt
    /\ resolve loader_own_format (loader_mro l) = Some fmt.
Proof.
  intros Hne ctx'.
  destruct (register_default_globals_lookups builtins ctx Hne)
    as (H1 & H2 & H3 & H4 & H5 & H6 & H7 & H8).
  fold ctx' in H1, H2, H3, H4, H5, H6, H7, H8.
  destruct wcls, fmt.
  - exists JsonDumper, "json"%string, JsonLoader.
    repeat split; try assumption. unfold matching_pairs. set_solver.
  - exists JsonBinaryDumper, "json"%string, JsonBinaryLoader.
    repeat split; try assumption. unfold matching_pairs. set_solver.
  - exists JsonbDumper, "jsonb"%string, JsonbLoader.
    repeat split; try assumption. unfold matching_pairs. set_solver.
  - exists JsonbBinaryDumper, "jsonb"%string, JsonbBinaryLoader.
    repeat split; try assumption. unfold matching_pairs. set_solver.
Qed.

(** [register_default_globals] files loaders under the OIDs of [json] and
    [jsonb] only: what the context resolves for any other OID is what it
    resolved before. *)
Theorem register_default_globals_keeps_other_loaders
  (builtins : string -> Z) (ctx : AdaptContext) (oid : Z) (fmt : Format) :
  oid <> builtins "json" -> oid <> builtins "jsonb" ->
  lookup_loader (state_after (register_default_globals builtins) ctx) oid fmt
  = lookup_loader ctx oid fmt.
Proof.
  intros H1 H2. unfold state_after. rewrite register_default_globals_run.
  unfold lookup_loader. simpl.
  rewrite !lookup_insert. repeat case_decide; congruence.
Qed.

(** * Properties of the async-to-sync converter *)

(** Case analysis on membership in a literal list. *)
Ltac split_items H :=
  repeat (apply elem_of_cons in H as [H|H]);
  [.. | apply elem_of_nil in H; destruct H].

Section Renaming.

Import AsyncToSync.

Lemma names_map_lookup_Some (k v : string) :
  names_map !! k = Some v -> (k, v) ∈ names_map_items.
Proof. apply elem_of_list_to_map_2. Qed.

Lemma setters_map_lookup_Some (k v : string) :
  setters_map !! k = Some v -> (k, v) ∈ setters_map_items.
Proof. apply elem_of_list_to_map_2. Qed.

Lemma names_map_get_not_key (k : string) :
  names_map !! names_map_get k = None.
Proof.
  unfold names_map_get.
  destruct (names_map !! k) as [v|] eqn:H; [|exact H].
  apply names_map_lookup_Some in H. unfold names_map_items in H.
  split_items H; injection H as -> ->; vm_compute; reflexivity.
Qed.

Lemma visit_Name_Name (id : string) (ctx : option expr_context) :
  visit_Name (Name id ctx) = Name (names_map_get id) ctx.
Proof.
  unfold visit_Name, names_map_get.
  destruct (names_map !! id); reflexivity.
Qed.

(** No name the table maps to is itself mapped: one renaming reaches a name
    the table leaves alone, so renaming twice is renaming once, by
    [names_map.get] as by [visit_Name]. *)
Theorem renaming_is_idempotent (k : string) (node : expr) :
  names_map !! names_map_get k = None
  /\ names_map_get (names_map_get k) = names_map_get k
  /\ visit_Name (visit_Name node) = visit_Name node.
Proof.
  assert (Hi : forall k0, names_map_get (names_map_get k0) = names_map_get k0).
  { intros k0. unfold names_map_get at 1.
    rewrite names_map_get_not_key. reflexivity. }
  split; [apply names_map_get_not_key|]. split; [apply Hi|].
  destruct node as [id ctx| | |]; try reflexivity.
  rewrite !visit_Name_Name, Hi. reflexivity.
Qed.

Lemma skip_imports_spec (x : string) :
  x ∈ _skip_imports <-> x = "alist"%string \/ x = "anext"%string.
Proof. unfold _skip_imports. rewrite elem_of_union, !elem_of_singleton. reflexivity. Qed.

(** [visit_ImportFrom] drops the statement exactly when it imports from
    [utils] and every imported name is [alist] or [anext]. *)
Theorem visit_ImportFrom_drops (node : ImportFrom) :
  visit_ImportFrom node = None
  <-> module node = Some "utils"%string
      /\ Forall (fun a => name a ∈ _skip_imports) (names node).
Proof.
  unfold visit_ImportFrom.
  destruct (bool_decide (module node = Some "utils"%string)) eqn:Hm.
  - apply bool_decide_eq_true in Hm.
    destruct (bool_decide
                (filter (fun n => name n ∉ _skip_imports) (names node) = []))
      eqn:Hf; cbn [andb].
    + apply bool_decide_eq_true in Hf. split; [intros _|reflexivity].
      split; [exact Hm|].
      apply Forall_forall. intros a Ha.
      destruct (decide (name a ∈ _skip_imports)) as [Hin|Hout]; [exact Hin|].
      assert (Hmem : a ∈ filter (fun n => name n ∉ _skip_imports) (names node))
        by (apply list_elem_of_filter; split; assumption).
      rewrite Hf in Hmem. apply elem_of_nil in Hmem. destruct Hmem.
    + apply bool_decide_eq_false in Hf. split; [discriminate|].
      intros [_ Hall]. exfalso. apply Hf. clear Hf.
      induction Hall as [|a l Ha _ IH]; [reflexivity|].
      rewrite filter_cons. destruct (decide (name a ∉ _skip_imports)); [contradiction|].
      exact IH.
  - apply bool_decide_eq_false in Hm. cbn [andb]. split; [discriminate|].
    intros [Hu _]. contradiction.
Qed.

(** When [visit_ImportFrom] keeps the statement, it keeps its module and
    level, imports no more names than before, and none of the names it
    imports is one the table would still rename. *)
Theorem visit_ImportFrom_renames_all (node node' : ImportFrom) :
  visit_ImportFrom node = Some node' ->
  module node' = module node
  /\ level node' = level node
  /\ length (names node') <= length (names node)
  /\ Forall (fun a => names_map !! name a = None) (names node').
Proof.
  unfold visit_ImportFrom. intros H.
  set (kept := if bool_decide (module node = Some "utils"%string)
               then filter (fun n => name n ∉ _skip_imports) (names node)
               else names node) in *.
  destruct (bool_decide (module node = Some "utils"%string)
            && bool_decide (kept = [])); [discriminate H|].
  injection H as <-. cbn [module level names]. split; [reflexivity|].
  split; [reflexivity|]. split.
  - rewrite length_map. subst kept.
    destruct (bool_decide (module node = Some "utils"%string)); [|lia].
    apply length_filter.
  - apply Forall_map. apply Forall_forall. intros a _. cbn [name].
    apply names_map_get_not_key.
Qed.

(** An import from [utils] never comes out importing [list] or [next] in
    place of [alist] or [anext]: such a name is in the result only if the
    statement imported it under that very name. *)
Theorem visit_ImportFrom_no_builtin_eclipse
  (node node' : ImportFrom) (x : string) :
  module node = Some "utils"%string ->
  visit_ImportFrom node = Some node' ->
  x = "list"%string \/ x = "next"%string ->
  x ∈ map name (names node') ->
  x ∈ map name (names node).
Proof.
  unfold visit_ImportFrom. intros Hm H Hx Hin.
  rewrite (bool_decide_eq_true_2 _ Hm) in H. cbn [andb] in H.
  destruct (bool_decide
              (filter (fun n => name n ∉ _skip_imports) (names node) = []));
    [discriminate H|].
  injection H as <-. cbn [names] in Hin.
  rewrite map_map in Hin. cbn [name] in Hin.
  apply list_elem_of_fmap in Hin as (a & Hxa & Ha).
  apply list_elem_of_filter in Ha as [Hskip Ha].
  apply list_elem_of_fmap. exists a. split; [|exact Ha].
  unfold names_map_get in Hxa.
  destruct (names_map !! name a) as [v|] eqn:Hv; simpl in Hxa; [|exact Hxa].
  exfalso. subst v. apply names_map_lookup_Some in Hv.
  unfold names_map_items in Hv.
  split_items Hv; injection Hv as Hn Hv';
    destruct Hx as [-> | ->]; try discriminate Hv';
    apply Hskip; apply skip_imports_spec; rewrite <- Hn; auto.
Qed.

End Renaming.

Section Calls.

Import AsyncToSync.

(** [_is_async_call] answers yes exactly on a call whose callee is the plain
    name [is_async], whatever the arguments; on a call whose callee is not a
    plain name, such as a method call, it raises [AttributeError] instead of
    answering. *)
Theorem is_async_call_cases (test : expr) :
  (_is_async_call test = Ok true
   <-> exists ctx args keywords,
         test = Call (Name "is_async" ctx) args keywords)
  /\ (_is_async_call test = Raise (AttributeError "id")
      <-> exists func args keywords,
            test = Call func args keywords
            /\ forall id ctx, func <> Name id ctx).
Proof.
  split; split.
  - destruct test as [| |func args kws|]; try discriminate.
    destruct func as [id ctx| | |]; try discriminate. simpl.
    case_bool_decide as Hid; [discriminate|]. intros _.
    subst id. eauto.
  - intros (ctx & args & kws & ->). reflexivity.
  - destruct test as [| |func args kws|]; try discriminate.
    destruct func as [id ctx| | |]; simpl.
    + case_bool_decide; discriminate.
    + intros _. eexists _, _, _. split; [reflexivity|]. discriminate.
    + intros _. eexists _, _, _. split; [reflexivity|]. discriminate.
    + intros _. eexists _, _, _. split; [reflexivity|]. discriminate.
  - intros (func & args & kws & -> & Hn).
    destruct func as [id ctx| | |]; try reflexivity.
    exfalso. exact (Hn id ctx eq_refl).
Qed.

(** When [_fix_setter] rewrites a call, the call was [obj.set_X(arg, ...)]
    for one of the four properties [X] and the result is the assignment
    [obj.X = arg]: the first positional argument is the value, further
    arguments are dropped. *)
Theorem fix_setter_rewrites
  (func : expr) (args : list expr) (keywords : list (option string * expr))
  (new_node : Assign) :
  _fix_setter func args keywords = Ok (Some new_node) ->
  exists obj target ctx arg rest,
    func = Attribute obj ("set_" +:+ target) ctx
    /\ args = arg :: rest
    /\ new_node = {| targets := [Attribute obj target None]; value := arg |}
    /\ target ∈ ["autocommit"; "read_only"; "isolation_level"; "deferrable"]%string.
Proof.
  unfold _fix_setter. intros H.
  destruct func as [|obj attr ctx| |]; try discriminate H.
  destruct (setters_map !! attr) as [target|] eqn:Hs; [|discriminate H].
  destruct args as [|arg rest]; [discriminate H|].
  injection H as <-. exists obj, target, ctx, arg, rest.
  apply setters_map_lookup_Some in Hs. unfold setters_map_items in Hs.
  split_items Hs; injection Hs as -> ->;
    (repeat split; [reflexivity..|]); set_solver.
Qed.

(** [_fix_setter] raises [IndexError] exactly on a call of one of the four
    setters with no positional argument, for instance with the value passed
    by keyword; with a positional argument, or on any other call, it does
    not. *)
Theorem fix_setter_needs_positional
  (func : expr) (args : list expr) (keywords : list (option string * expr)) :
  _fix_setter func args keywords = Raise IndexError
  <-> args = []
      /\ exists obj attr ctx,
           func = Attribute obj attr ctx /\ is_Some (setters_map !! attr).
Proof.
  unfold _fix_setter. split.
  - destruct func as [|obj attr ctx| |]; try discriminate.
    destruct (setters_map !! attr) as [target|] eqn:Hs; [|discriminate].
    destruct args as [|arg rest]; [|discriminate].
    intros _. split; [reflexivity|].
    exists obj, attr, ctx. split; [reflexivity|]. rewrite Hs. eauto.
  - intros (-> & obj & attr & ctx & -> & [target Hs]). rewrite Hs. reflexivity.
Qed.

End Calls.

Section BlankLines.

Import AsyncToSync.

Context {A : Type}.

Implicit Types (before after : body_node A) (body rest : list (body_node A)).

Lemma blank_after_is_blank before : is_blank (blank_after before) = true.
Proof. reflexivity. Qed.

Lemma inject_loop_filter before rest :
  Forall (fun n => is_blank n = false) rest ->
  filter (fun n => is_blank n = false) (inject_loop before rest) = rest.
Proof.
  intros H. revert before. induction H as [|after rest Ha _ IH]; intros before.
  - reflexivity.
  - cbn [inject_loop].
    destruct (node_lineno after - node_end_lineno before - 1 >? 0)%Z.
    + cbn [app]. rewrite filter_cons_False
        by (rewrite blank_after_is_blank; discriminate).
      rewrite filter_cons_True by exact Ha. rewrite IH. reflexivity.
    + cbn [app]. rewrite filter_cons_True by exact Ha. rewrite IH. reflexivity.
Qed.



(** [_inject_blanks] only adds nodes: taking the empty non-inline comments
    out of its result gives back a body that had none, node for node and in
    order. *)
Theorem inject_blanks_keeps_body body :
  Forall (fun n => is_blank n = false) body ->
  filter (fun n => is_blank n = false) (_inject_blanks body) = body.
Proof.
  intros H. destruct H as [|before rest Hb Hrest]; [reflexivity|].
  cbn [_inject_blanks]. rewrite filter_cons_True by exact Hb.
  rewrite inject_loop_filter by exact Hrest. reflexivity.
Qed.


(** Each node [_inject_blanks] adds is an empty comment on the line right
    after the node before it, and that line is free: it lies before the
    first line of the node that follows. *)
Theorem inject_blanks_places_blank before after rest :
  (node_end_lineno before + 1 < node_lineno after)%Z ->
  _inject_blanks (before :: after :: rest)
  = before :: blank_after before :: _inject_blanks (after :: rest)
  /\ node_lineno (blank_after before) = (node_end_lineno before + 1)%Z
  /\ node_end_lineno (blank_after before) = (node_end_lineno before + 1)%Z
  /\ (node_end_lineno before < node_lineno (blank_after before)
      < node_lineno after)%Z.
Proof.
  intros H. cbn [_inject_blanks inject_loop].
  destruct (Z.gtb_spec (node_lineno after - node_end_lineno before - 1) 0);
    [|lia].
  repeat split; cbn [blank_after node_lineno]; lia.
Qed.

End BlankLines.

(** * The further properties on concrete values *)

Lemma jsonb_binary_load_strips_version_witness :
  load MiniJson.sample_loader
    (PyMemoryView (Samples.strided_view [1; 91; 93]%Z)) MiniJson.initial_globals
  = load Samples.text_loader
      (buffer_slice_from1 (PyMemoryView (Samples.strided_view [1; 91; 93]%Z)))
      MiniJson.initial_globals
  /\ buffer_content
       (buffer_slice_from1 (PyMemoryView (Samples.strided_view [1; 91; 93]%Z)))
     = [91; 93]%Z.
Proof.
  apply (jsonb_binary_load_strips_version MiniJson.sample_loader
           Samples.text_loader
           (PyMemoryView (Samples.strided_view [1; 91; 93]%Z)) [91; 93]%Z
           MiniJson.initial_globals);
    [reflexivity | discriminate | reflexivity | reflexivity | reflexivity].
Defined.

Lemma text_dump_refused_by_binary_loader_witness :
  (out <- dump JsonbDumper Samples.wrapper ;;
   load MiniJson.sample_loader (PyBytes out))%py MiniJson.initial_globals
  = (Raise (DataError jsonb_format_message), MiniJson.initial_globals).
Proof.
  eapply (text_dump_refused_by_binary_loader JsonbDumper Samples.wrapper
            MiniJson.sample_loader 91%Z);
    [discriminate | reflexivity | vm_compute; reflexivity | discriminate
    | vm_compute; reflexivity].
Defined.

Lemma binary_dump_reaches_text_deserializer_whole_witness :
  (out <- dump JsonbBinaryDumper Samples.wrapper ;;
   load Samples.text_loader (PyBytes out))%py MiniJson.initial_globals
  = (MiniJson.loads (PyBytes (1%Z :: MiniJson.dumps_text MiniJson.sample)),
     MiniJson.initial_globals).
Proof.
  apply (binary_dump_reaches_text_deserializer_whole Samples.wrapper
           Samples.text_loader (MiniJson.dumps_text MiniJson.sample));
    [discriminate | reflexivity | vm_compute; reflexivity].
Defined.

Lemma dump_ascii_text_verbatim_witness :
  value_of (dump JsonbBinaryDumper Samples.wrapper) MiniJson.initial_globals
  = Ok (1%Z :: MiniJson.dumps_text MiniJson.sample).
Proof.
  apply (dump_ascii_text_verbatim JsonbBinaryDumper Samples.wrapper
           (MiniJson.dumps_text MiniJson.sample) MiniJson.initial_globals);
    [reflexivity|].
  vm_compute. repeat constructor; discriminate.
Defined.

Lemma dump_lone_surrogate_raises_witness :
  value_of (dump JsonDumper Samples.surrogate_wrapper) MiniJson.initial_globals
  = Raise (UnicodeEncodeError 0xD800).
Proof.
  apply (dump_lone_surrogate_raises JsonDumper Samples.surrogate_wrapper
           [34%Z] [34%Z] 0xD800%Z [34%Z] MiniJson.initial_globals);
    reflexivity.
Defined.

Lemma roundtrip_through_view_witness :
  value_of (init_load JsonbBinaryLoader 3802 None
              (PyMemoryView
                 (Samples.strided_view
                    (1%Z :: MiniJson.dumps_text MiniJson.sample))))
    MiniJson.initial_globals
  = loads_of_dumps MiniJson.initial_globals MiniJson.sample.
Proof.
  pose proof (roundtrip_through_view MiniJson.sample 3802
                MiniJson.initial_globals) as H.
  unfold matching_pairs in H.
  apply Forall_cons in H as [_ H]. apply Forall_cons in H as [_ H].
  apply Forall_cons in H as [_ H]. apply Forall_cons in H as [H _].
  apply (H (Samples.strided_view (1%Z :: MiniJson.dumps_text MiniJson.sample))
           (1%Z :: MiniJson.dumps_text MiniJson.sample)).
  - reflexivity.
  - vm_compute. reflexivity.
  - intros _. reflexivity.
Defined.

Lemma repr_shows_bounded_prefix_witness :
  exists shown : str,
    JsonWrapper_repr MiniJson.dumps Samples.wrapper
    = Ok (class_name Jsonb ++ [40%Z] ++ shown ++ [41%Z])
    /\ take 35 shown = take 35 (MiniJson.dumps_text MiniJson.sample)
    /\ length shown
       <= 48 + length (str_of_nat (length (MiniJson.dumps_text MiniJson.sample)))
    /\ (length (MiniJson.dumps_text MiniJson.sample) <= 40
        -> shown = MiniJson.dumps_text MiniJson.sample).
Proof.
  apply (repr_shows_bounded_prefix MiniJson.dumps Samples.wrapper
           (MiniJson.dumps_text MiniJson.sample)).
  reflexivity.
Defined.

Lemma repr_abbreviation_can_lengthen_witness :
  length (abbreviated (repeat 65%Z 41)) = 50
  /\ length (repeat 65%Z 41) < length (abbreviated (repeat 65%Z 41)).
Proof.
  apply (repr_abbreviation_can_lengthen (repeat 65%Z 41)).
  vm_compute. split; repeat constructor.
Defined.

Lemma register_default_globals_overrides_witness :
  let ctx' :=
    state_after (register_default_globals Samples.builtins) empty_context in
  lookup_dumper ctx' Json TEXT = Some JsonDumper
  /\ lookup_dumper ctx' Json BINARY = Some JsonBinaryDumper
  /\ lookup_dumper ctx' Jsonb TEXT = Some JsonbDumper
  /\ lookup_dumper ctx' Jsonb BINARY = Some JsonbBinaryDumper
  /\ lookup_loader ctx' (Samples.builtins "json") TEXT = Some JsonLoader
  /\ lookup_loader ctx' (Samples.builtins "json") BINARY = Some JsonBinaryLoader
  /\ lookup_loader ctx' (Samples.builtins "jsonb") TEXT = Some JsonbLoader
  /\ lookup_loader ctx' (Samples.builtins "jsonb") BINARY
     = Some JsonbBinaryLoader.
Proof.
  apply (register_default_globals_overrides Samples.builtins empty_context).
  vm_compute. discriminate.
Defined.

Lemma default_registry_pairs_match_witness :
  exists (d : dumper_class) (type_name : string) (l : loader_class),
    lookup_dumper
      (state_after (register_default_globals Samples.builtins) empty_context)
      Jsonb BINARY = Some d
    /\ dumper_oid_name d = Some type_name
    /\ lookup_loader
         (state_after (register_default_globals Samples.builtins) empty_context)
         (Samples.builtins type_name) BINARY = Some l
    /\ (Jsonb, d, l) ∈ matching_pairs
    /\ resolve dumper_own_format (dumper_mro d) = Some BINARY
    /\ resolve loader_own_format (loader_mro l) = Some BINARY.
Proof.
  apply (default_registry_pairs_match Samples.builtins empty_context
           Jsonb BINARY).
  vm_compute. discriminate.
Defined.

Lemma register_default_globals_keeps_other_loaders_witness :
  lookup_loader
    (state_after (register_default_globals Samples.builtins) empty_context)
    25 TEXT
  = lookup_loader empty_context 25 TEXT.
Proof.
  apply (register_default_globals_keeps_other_loaders Samples.builtins
           empty_context 25 TEXT); vm_compute; discriminate.
Defined.

Lemma visit_ImportFrom_renames_all_witness :
  let node' :=
    {| AsyncToSync.module := Some "utils"%string;
       AsyncToSync.names :=
         [ {| AsyncToSync.name := "close"; AsyncToSync.asname := None |};
           {| AsyncToSync.name := "list"; AsyncToSync.asname := None |} ]%string;
       AsyncToSync.level := 1 |} in
  AsyncToSync.module node' = AsyncToSync.module Samples.import_from_utils
  /\ AsyncToSync.level node' = AsyncToSync.level Samples.import_from_utils
  /\ length (AsyncToSync.names node')
     <= length (AsyncToSync.names Samples.import_from_utils)
  /\ Forall (fun a => AsyncToSync.names_map !! AsyncToSync.name a = None)
       (AsyncToSync.names node').
Proof.
  apply (visit_ImportFrom_renames_all Samples.import_from_utils).
  vm_compute. reflexivity.
Defined.

Lemma visit_ImportFrom_no_builtin_eclipse_witness :
  "list"%string
    ∈ map AsyncToSync.name (AsyncToSync.names Samples.import_from_utils).
Proof.
  eapply (visit_ImportFrom_no_builtin_eclipse Samples.import_from_utils _
            "list"%string).
  - reflexivity.
  - vm_compute. reflexivity.
  - left. reflexivity.
  - vm_compute. set_solver.
Defined.

Lemma fix_setter_rewrites_witness :
  exists obj target ctx arg rest,
    AsyncToSync.Attribute (AsyncToSync.Name "conn" None) "set_autocommit" None
    = AsyncToSync.Attribute obj ("set_" +:+ target) ctx
    /\ [AsyncToSync.Name "flag" None; AsyncToSync.Name "extra" None]
       = arg :: rest
    /\ {| AsyncToSync.targets :=
            [AsyncToSync.Attribute (AsyncToSync.Name "conn" None)
               "autocommit" None];
          AsyncToSync.value := AsyncToSync.Name "flag" None |}
       = {| AsyncToSync.targets := [AsyncToSync.Attribute obj target None];
            AsyncToSync.value := arg |}
    /\ target ∈ ["autocommit"; "read_only"; "isolation_level"; "deferrable"]%string.
Proof.
  apply (fix_setter_rewrites
           (AsyncToSync.Attribute (AsyncToSync.Name "conn" None)
              "set_autocommit" None)
           [AsyncToSync.Name "flag" None; AsyncToSync.Name "extra" None] []).
  vm_compute. reflexivity.
Defined.

Lemma inject_blanks_keeps_body_witness :
  filter (fun n => AsyncToSync.is_blank n = false)
    (AsyncToSync._inject_blanks Samples.body)
  = Samples.body.
Proof.
  apply (inject_blanks_keeps_body Samples.body).
  repeat constructor.
Defined.

Lemma inject_blanks_places_blank_witness :
  let before := AsyncToSync.Stmt 1%nat 1%Z 2%Z in
  let after := AsyncToSync.Stmt 2%nat 5%Z 5%Z in
  let rest := [AsyncToSync.Stmt 3%nat 6%Z 7%Z] in
  AsyncToSync._inject_blanks (before :: after :: rest)
  = before :: AsyncToSync.blank_after before
      :: AsyncToSync._inject_blanks (after :: rest)
  /\ AsyncToSync.node_lineno (AsyncToSync.blank_after before) = 3%Z
  /\ AsyncToSync.node_end_lineno (AsyncToSync.blank_after before) = 3%Z
  /\ (AsyncToSync.node_end_lineno before
      < AsyncToSync.node_lineno (AsyncToSync.blank_after before)
      < AsyncToSync.node_lineno after)%Z.
Proof.
  apply (inject_blanks_places_blank
           (AsyncToSync.Stmt 1%nat 1%Z 2%Z) (AsyncToSync.Stmt 2%nat 5%Z 5%Z)
           [AsyncToSync.Stmt 3%nat 6%Z 7%Z]).
  vm_compute. reflexivity.
Defined.
